(** * kantek: the plugin manager ([utils/pluginmgr.py])

    A shallow embedding of the plugin manager of the kantek userbot and the
    properties of its registry.  The development follows the order of the
    Python module: the pieces of the Python runtime the manager calls
    ([str] methods, [os.path]), the [Callback] and [Plugin] records, the
    syntax trees and loaded modules the manager inspects, and then the
    [PluginManager] methods as state-passing functions that can raise. *)

From Stdlib Require Import String Ascii List Bool Arith Lia.
From stdpp Require Import base option list strings gmap.


(** ** Exceptions and results *)

(** The exceptions the manager can let escape.  [OtherError] stands for
    whatever a plugin file raises while it is being executed. *)
Inductive exn : Type :=
  | SyntaxError
  | FileNotFoundError
  | ValueError
  | AttributeError
  | TypeError
  | IndexError
  | OtherError (what : string).

Inductive Result (A : Type) : Type :=
  | Ok (a : A)
  | Raise (e : exn).
Arguments Ok {A} a.
Arguments Raise {A} e.

Definition rbind {A B} (r : Result A) (k : A → Result B) : Result B :=
  match r with
  | Ok a => k a
  | Raise e => Raise e
  end.

Definition rmap {A B} (f : A → B) (r : Result A) : Result B :=
  rbind r (λ a, Ok (f a)).

(** ** Python [str] methods used by the manager *)

Module PyStr.

Definition chars (s : string) : list ascii := list_ascii_of_string s.

Definition mem (c : ascii) (set : string) : bool :=
  existsb (Ascii.eqb c) (chars set).

(** [s.rstrip(set)]: drop the longest suffix of [s] made of characters
    that occur in [set].  The argument is a set of characters, not a
    suffix. *)
Fixpoint rstrip (set s : string) : string :=
  match s with
  | "" => ""
  | String c t =>
      match rstrip set t with
      | "" => if mem c set then "" else String c ""
      | r => String c r
      end
  end.

(** [s.replace(old, new)] for one-character [old] and [new]. *)
Fixpoint replace (old new : ascii) (s : string) : string :=
  match s with
  | "" => ""
  | String c t =>
      String (if Ascii.eqb c old then new else c) (replace old new t)
  end.

Definition startswith (s p : string) : bool := String.prefix p s.

Fixpoint endswith_char (s : string) (c : ascii) : bool :=
  match s with
  | "" => false
  | String d "" => Ascii.eqb d c
  | String _ t => endswith_char t c
  end.

(** [s.split(sep)] for a one-character separator; never the empty list. *)
Fixpoint split (sep : ascii) (s : string) : list string :=
  match s with
  | "" => [""]
  | String c t =>
      if Ascii.eqb c sep then "" :: split sep t
      else match split sep t with
           | w :: ws => String c w :: ws
           | [] => [String c ""]
           end
  end.

(** [sep.join(parts)] *)
Fixpoint join (sep : string) (parts : list string) : string :=
  match parts with
  | [] => ""
  | [w] => w
  | w :: ws => w +:+ sep +:+ join sep ws
  end.

(** [s.rfind(c)], [None] standing for Python's [-1]. *)
Fixpoint rfind (c : ascii) (s : string) : option nat :=
  match s with
  | "" => None
  | String d t =>
      match rfind c t with
      | Some i => Some (S i)
      | None => if Ascii.eqb d c then Some 0 else None
      end
  end.

(** The slice [s[i:j]]. *)
Definition slice (i j : nat) (s : string) : string :=
  String.substring i (j - i) s.

Definition slice_from (i : nat) (s : string) : string :=
  String.substring i (String.length s - i) s.

End PyStr.

(** ** [os.path] (the POSIX flavour) *)

Module OsPath.
Import PyStr.

Definition sep : ascii := "/"%char.

Definition isabs (p : string) : bool := startswith p "/".

(** One step of [os.path.join]: append component [b] to [path]. *)
Definition join2 (path b : string) : string :=
  if startswith b "/" then b
  else if (String.eqb path "" || endswith_char path sep)%bool then path +:+ b
  else path +:+ "/" +:+ b.

(** [os.path.join(a, *p)] *)
Definition join (a : string) (p : list string) : string :=
  fold_left join2 p a.

(** [os.path.splitext(p)]: the extension starts at the last dot of the
    last component, unless only dots precede it there. *)
Definition splitext (p : string) : string * string :=
  let start := match rfind sep p with Some i => S i | None => 0 end in
  match rfind "."%char p with
  | Some dot =>
      if (Nat.leb start dot
          && existsb (λ c, negb (Ascii.eqb c "."%char))
                     (chars (slice start dot p)))%bool
      then (slice 0 dot p, slice_from dot p)
      else (p, "")
  | None => (p, "")
  end.

(** The loop of [os.path.normpath] over the components of a path;
    [rooted] tells whether the path starts with a slash and [acc] is the
    stack of components kept so far, last one first. *)
Fixpoint normcomps (rooted : bool) (comps acc : list string) : list string :=
  match comps with
  | [] => rev acc
  | comp :: rest =>
      if (String.eqb comp "" || String.eqb comp ".")%bool
      then normcomps rooted rest acc
      else if negb (String.eqb comp "..")
        then normcomps rooted rest (comp :: acc)
      else match acc with
           | [] => if rooted then normcomps rooted rest acc
                   else normcomps rooted rest (comp :: acc)
           | top :: acc' =>
               if String.eqb top ".."
               then normcomps rooted rest (comp :: acc)
               else normcomps rooted rest acc'
           end
  end.

(** [os.path.normpath(path)] *)
Definition normpath (path : string) : string :=
  if String.eqb path "" then "."
  else
    let slashes :=
      if startswith path "/" then
        if (startswith path "//" && negb (startswith path "///"))%bool
        then "//" else "/"
      else "" in
    let comps := normcomps (startswith path "/") (split sep path) [] in
    let out := slashes +:+ PyStr.join "/" comps in
    if String.eqb out "" then "." else out.

(** [os.path.abspath(path)] in a process whose working directory is
    [cwd]. *)
Definition abspath (cwd path : string) : string :=
  normpath (if isabs path then path else join cwd [path]).

(** [len(os.path.commonprefix([a, b]))] on two lists of components. *)
Fixpoint common_len (a b : list string) : nat :=
  match a, b with
  | x :: a', y :: b' => if String.eqb x y then S (common_len a' b') else 0
  | _, _ => 0
  end.

Definition nonempty_comps (p : string) : list string :=
  filter (λ x, x ≠ "") (split sep p).

(** [os.path.relpath(path, start)] *)
Definition relpath (cwd path start : string) : Result string :=
  if String.eqb path "" then Raise ValueError
  else
    let start_list := nonempty_comps (abspath cwd start) in
    let path_list := nonempty_comps (abspath cwd path) in
    let i := common_len start_list path_list in
    let rel_list := replicate (length start_list - i) ".." ++ drop i path_list in
    match rel_list with
    | [] => Ok "."
    | a :: p => Ok (join a p)
    end.

End OsPath.


(** ** Syntax trees ([ast])

    The node classes of [ast] that the manager tells apart, under the names
    the manager uses for them ([Str], [NameConstant]); every other statement
    or expression is [OtherStmt] or [OtherExpr], and reading an attribute
    that a node does not have raises [AttributeError].  A keyword argument
    is a pair of its name and its value. *)

Local Unset Elimination Schemes.

Inductive expr : Type :=
  | Name (id : string)
  | Attribute (value : expr) (attr : string)
  | Call (func : expr) (args : list expr) (keywords : list (string * expr))
  | Str (s : string)
  | NameConstant (value : option bool)
  | OtherExpr.

Inductive stmt : Type :=
  | Assign (targets : list expr) (value : expr)
  | ClassDef (name : string) (bases : list expr) (body : list stmt)
  | AsyncFunctionDef (name : string) (decorator_list : list expr)
  | OtherStmt.

Local Set Elimination Schemes.

(** ** Objects of a loaded module *)

(** A function as a plugin file describes it.  [fd_fresh] tells whether
    executing the file creates the function (an [async def] in a class
    body) or binds an object that exists already (one imported from a
    module that stays loaded). *)
Record fdesc : Type := {
  fd_fresh : bool;
  fd_qualname : string;
  fd_doc : option string;
  fd_is_handler : bool
}.

(** A function object.  Functions are compared by identity: the execution
    that created the object ([None] for one that was only imported) and
    its qualified name.  [fn_is_handler] is [events.is_handler(func)]. *)
Record funcobj : Type := {
  fn_created : option nat;
  fn_qualname : string;
  fn_doc : option string;
  fn_is_handler : bool
}.

Inductive pyval (F : Type) : Type :=
  | VNone
  | VStr (s : string)
  | VFunc (f : F)
  | VOther.
Arguments VNone {F}.
Arguments VStr {F} s.
Arguments VFunc {F} f.
Arguments VOther {F}.

Definition pyval_map {F G} (h : F → G) (v : pyval F) : pyval G :=
  match v with
  | VNone => VNone
  | VStr s => VStr s
  | VFunc f => VFunc (h f)
  | VOther => VOther
  end.

(** A class is [KantekPlugin] itself or another class with its own
    attribute dictionary. *)
Inductive pyclass : Type :=
  | KantekPlugin
  | UserClass (qualname : string) (dict : gmap string (pyval fdesc)).

(** [class KantekPlugin: name = None; help = None] *)
Definition class_dict (c : pyclass) : gmap string (pyval fdesc) :=
  match c with
  | KantekPlugin => {[ "name" := VNone; "help" := VNone ]}
  | UserClass _ dict => dict
  end.

(** What a module binds a name to: a class, given by its method
    resolution order (itself first), or something else. *)
Inductive pyobj : Type :=
  | OClass (mro : list pyclass)
  | OOther.

(** A plugin file: its text does not compile, or it has a syntax tree and
    executing it raises or leaves a module namespace. *)
Inductive source : Type :=
  | BadSyntax
  | Module_ (body : list stmt) (run : Result (gmap string pyobj)).

(** A loaded module: the execution that produced it and its namespace. *)
Record module : Type := {
  mod_load : nat;
  mod_ns : gmap string pyobj
}.

Definition instantiate (n : nat) (d : fdesc) : funcobj :=
  {| fn_created := if fd_fresh d then Some n else None;
     fn_qualname := fd_qualname d;
     fn_doc := fd_doc d;
     fn_is_handler := fd_is_handler d |}.

Global Instance funcobj_eq_dec : EqDecision funcobj.
Proof. solve_decision. Defined.

Global Instance pyval_eq_dec {F} `{EqDecision F} : EqDecision (pyval F).
Proof. solve_decision. Defined.

(** ** The records of the manager *)

Module Callback.
Record t : Type := mk {
  name : string;
  help : option string;
  callback : funcobj;
  private : bool
}.
Global Instance eq_dec : EqDecision t.
Proof. solve_decision. Defined.
End Callback.

Module Plugin.
Record t : Type := mk {
  name : string;
  help : pyval funcobj;
  callbacks : list Callback.t;
  full_path : string;
  plugin_path : string;
  version : string
}.
Global Instance eq_dec : EqDecision t.
Proof. solve_decision. Defined.

(** The property [Plugin.path]; [cwd] is the working directory of the
    process, which [os.path.relpath] consults for relative paths. *)
Definition path (cwd : string) (self : t) : Result string :=
  rmap (λ rel, PyStr.replace "\"%char "/"%char (PyStr.rstrip ".py" rel))
       (OsPath.relpath cwd (full_path self) (plugin_path self)).
End Plugin.

(** ** The host client *)

(** The manager only ever calls two methods of the client; the client is
    represented by the calls it has received, oldest first. *)
Inductive client_call : Type :=
  | AddEventHandler (callback : funcobj)
  | RemoveEventHandler (callback : funcobj).

(** Modelled from the spec: the host client ([utils/client.py] and the
    event framework under it) is not part of the sources.  Its handler
    table is a list of callables: [addEventHandler(callable)] appends an
    entry, [removeEventHandler(callable)] removes the entries of that
    callable and does nothing for an unknown one. *)
Definition client_step (table : list funcobj) (c : client_call) : list funcobj :=
  match c with
  | AddEventHandler h => table ++ [h]
  | RemoveEventHandler h => filter (λ h', h' ≠ h) table
  end.

Definition handler_table (calls : list client_call) : list funcobj :=
  fold_left client_step calls [].

(** ** The environment and the state of the process *)

(** What the manager reads from outside: the working directory of the
    process, what [os.walk(plugin_path)] yields (triples of a directory, its
    subdirectories and its files), and the plugin files by path. *)
Record env : Type := {
  cwd : string;
  walk : list (string * list string * list string);
  sources : gmap string source
}.

(** The mutable state: the class attribute [PluginManager.active_plugins],
    the calls made on [self.client], and how many module executions the
    interpreter has performed. *)
Record state : Type := {
  active_plugins : list Plugin.t;
  client_calls : list client_call;
  loads : nat
}.

Definition initial : state :=
  {| active_plugins := []; client_calls := []; loads := 0 |}.

(** Computations that read and change the state and may raise; the state
    reached when an exception escapes is kept. *)
Definition M (A : Type) : Type := state → Result A * state.

Definition ret {A} (a : A) : M A := λ st, (Ok a, st).

Definition bind {A B} (c : M A) (k : A → M B) : M B :=
  λ st, match c st with
        | (Ok a, st') => k a st'
        | (Raise e, st') => (Raise e, st')
        end.

Definition lift {A} (r : Result A) : M A := λ st, (r, st).

Notation "x <- c ;; k" := (bind c (λ x, k))
  (at level 100, c at next level, right associativity).
Notation "c ;;; k" := (bind c (λ _, k))
  (at level 100, right associativity).

(** [for x in l: body(x)] over a list that the body does not change. *)
Fixpoint for_each {A} (l : list A) (body : A → M unit) : M unit :=
  match l with
  | [] => ret tt
  | x :: l' => body x ;;; for_each l' body
  end.

(** A loop that threads local variables [s] and may raise. *)
Fixpoint rfold {A S} (f : S → A → Result S) (l : list A) (s : S) : Result S :=
  match l with
  | [] => Ok s
  | x :: l' => rbind (f s x) (rfold f l')
  end.

(** ** [PluginManager] *)

(** The dictionary [_get_plugin_info] returns. *)
Record plugin_info : Type := {
  info_version : string;
  info_name : pyval funcobj;
  info_help : pyval funcobj
}.

(** [events.is_handler(func)] *)
Definition is_handler (func : pyval funcobj) : bool :=
  match func with
  | VFunc f => fn_is_handler f
  | _ => false
  end.

(** [keywords.get(key)]: Python's [None] for a missing key and for a key
    bound to [None]. *)
Definition get (keywords : gmap string (option bool)) (key : string) : option bool :=
  match keywords !! key with
  | Some v => v
  | None => None
  end.

Definition __is_private (keywords : gmap string (option bool)) : bool :=
  let incoming := get keywords "incoming" in
  let outgoing := get keywords "outgoing" in
  let is_private := false in
  let is_private :=
    match incoming with Some i => negb i | None => is_private end in
  let is_private :=
    match outgoing with Some o => o | None => is_private end in
  is_private.

(** The keywords of the calls that are the arguments of [decorator];
    [keywords.update({k: v})] overwrites. *)
Definition __get_keywords (decorator : expr) : Result (gmap string (option bool)) :=
  match decorator with
  | Call _ args _ =>
      rfold (λ keywords arg,
               match arg with
               | Call _ _ arg_keywords =>
                   Ok (fold_left
                         (λ keywords kw,
                            match snd kw with
                            | NameConstant value => <[fst kw := value]> keywords
                            | _ => keywords
                            end)
                         arg_keywords keywords)
               | _ => Raise AttributeError
               end)
            args ∅
  | _ => Raise AttributeError
  end.

(** [decorator.func.value.id == 'events'] needs a call of an attribute of
    a name; any other decorator makes the attribute accesses fail. *)
Definition __get_event_decorator_keywords (decorator_list : list expr)
  : Result (gmap string (option bool)) :=
  rfold (λ keywords decorator,
           match decorator with
           | Call (Attribute (Name id) _) _ _ =>
               if String.eqb id "events"
               then rmap (λ new, new ∪ keywords) (__get_keywords decorator)
               else Ok keywords
           | _ => Raise AttributeError
           end)
        decorator_list ∅.

(** Attribute lookup along the method resolution order. *)
Fixpoint mro_lookup (mro : list pyclass) (attr : string) : option (pyval fdesc) :=
  match mro with
  | [] => None
  | c :: rest =>
      match class_dict c !! attr with
      | Some v => Some v
      | None => mro_lookup rest attr
      end
  end.

(** [getattr(module, name)] *)
Definition module_getattr (m : module) (name : string) : Result pyobj :=
  match mod_ns m !! name with
  | Some o => Ok o
  | None => Raise AttributeError
  end.

(** [getattr(plugin, attr)] for an object found in module [m]. *)
Definition getattr (m : module) (plugin : pyobj) (attr : string)
  : Result (pyval funcobj) :=
  match plugin with
  | OClass mro =>
      match mro_lookup mro attr with
      | Some v => Ok (pyval_map (instantiate (mod_load m)) v)
      | None => Raise AttributeError
      end
  | OOther => Raise AttributeError
  end.

Definition is_KantekPlugin (c : pyclass) : bool :=
  match c with
  | KantekPlugin => true
  | UserClass _ _ => false
  end.

(** [issubclass(plugin, KantekPlugin)], a [TypeError] when [plugin] is not
    a class. *)
Definition issubclass (plugin : pyobj) : Result bool :=
  match plugin with
  | OClass mro => Ok (existsb is_KantekPlugin mro)
  | OOther => Raise TypeError
  end.

(** [isinstance(item, ast.ClassDef) and not item.name.startswith('_') and
    item.bases], on the name and the bases of a class definition. *)
Definition plugin_class_candidate (name : string) (bases : list expr) : bool :=
  negb (PyStr.startswith name "_") && negb (bool_decide (bases = [])).

Section PluginManager.
Context (E : env).

(** [self.plugin_path = os.path.abspath('./plugins')] *)
Definition plugin_path : string := OsPath.abspath (cwd E) "./plugins".

Definition _get_plugin_location (path : string) : Result string :=
  rmap (λ rel, PyStr.replace "\"%char "/"%char (PyStr.rstrip ".py" rel))
       (OsPath.relpath (cwd E) path plugin_path).

Definition _get_plugin_list : list (string * string) :=
  flat_map
    (λ entry,
       let '(root, dirs, files) := entry in
       flat_map
         (λ file,
            let path := OsPath.join root [file] in
            let '(name, ext) := OsPath.splitext file in
            if String.eqb ext ".py" then [(name, path)] else [])
         files)
    (walk E).

(** [importlib.util.spec_from_file_location(name, path).loader
    .load_module()]: compile the file and execute it; every call executes
    the file again. *)
Definition load_module (name path : string) : M module :=
  λ st,
    match sources E !! path with
    | None => (Raise FileNotFoundError, st)
    | Some BadSyntax => (Raise SyntaxError, st)
    | Some (Module_ _ run) =>
        let st' := {| active_plugins := active_plugins st;
                      client_calls := client_calls st;
                      loads := S (loads st) |} in
        match run with
        | Ok ns => (Ok {| mod_load := loads st; mod_ns := ns |}, st')
        | Raise e => (Raise e, st')
        end
    end.

(** [ast.parse(f.read()).body] for the file at [path] *)
Definition parse (path : string) : Result (list stmt) :=
  match sources E !! path with
  | None => Raise FileNotFoundError
  | Some BadSyntax => Raise SyntaxError
  | Some (Module_ body _) => Ok body
  end.

(** One round of the loop of [_get_plugin_info]. *)
Definition info_item (m : module) (info : plugin_info) (item : stmt)
  : Result plugin_info :=
  match item with
  | Assign targets value =>
      match targets with
      | [] => Raise IndexError
      | Name id :: _ =>
          if String.eqb id "__version__" then
            match value with
            | Str s => Ok {| info_version := s;
                             info_name := info_name info;
                             info_help := info_help info |}
            | _ => Raise AttributeError
            end
          else Ok info
      | _ :: _ => Raise AttributeError
      end
  | ClassDef name bases _ =>
      if plugin_class_candidate name bases then
        rbind (module_getattr m name) (λ plugin,
        rbind (issubclass plugin) (λ sub,
        if sub : bool then
          rbind (getattr m plugin "name") (λ name,
          rbind (getattr m plugin "help") (λ plugin_help,
          Ok {| info_version := info_version info;
                info_name := name;
                info_help := plugin_help |}))
        else Ok info))
      else Ok info
  | _ => Ok info
  end.

Definition _get_plugin_info (name path : string) : M plugin_info :=
  module <- load_module name path ;;
  tree <- lift (parse path) ;;
  lift (rfold (info_item module) tree
          {| info_version := ""; info_name := VStr ""; info_help := VStr "" |}).

(** One round of the loop over the body of a plugin class. *)
Definition callbacks_method (m : module) (plugin : pyobj)
    (callbacks : list Callback.t) (method : stmt) : Result (list Callback.t) :=
  match method with
  | AsyncFunctionDef name decorator_list =>
      rbind (getattr m plugin name) (λ func,
      if is_handler func then
        rbind (__get_event_decorator_keywords decorator_list) (λ keywords,
        let is_private := __is_private keywords in
        match func with
        | VFunc f =>
            Ok (callbacks ++ [Callback.mk name (fn_doc f) f is_private])
        | _ => Ok callbacks
        end)
      else Ok callbacks)
  | _ => Ok callbacks
  end.

(** One round of the loop of [_get_plugin_callbacks]. *)
Definition callbacks_item (m : module) (callbacks : list Callback.t)
    (item : stmt) : Result (list Callback.t) :=
  match item with
  | ClassDef name bases body =>
      if plugin_class_candidate name bases then
        rbind (module_getattr m name) (λ plugin,
        rbind (issubclass plugin) (λ sub,
        if sub : bool then rfold (callbacks_method m plugin) body callbacks
        else Ok callbacks))
      else Ok callbacks
  | _ => Ok callbacks
  end.

Definition _get_plugin_callbacks (name path : string) : M (list Callback.t) :=
  module <- load_module name path ;;
  tree <- lift (parse path) ;;
  lift (rfold (callbacks_item module) tree []).

(** [self.client.add_event_handler(callback)] *)
Definition add_event_handler (callback : funcobj) : M unit :=
  λ st, (Ok tt,
         {| active_plugins := active_plugins st;
            client_calls := client_calls st ++ [AddEventHandler callback];
            loads := loads st |}).

(** [self.client.remove_event_handler(callback)] *)
Definition remove_event_handler (callback : funcobj) : M unit :=
  λ st, (Ok tt,
         {| active_plugins := active_plugins st;
            client_calls := client_calls st ++ [RemoveEventHandler callback];
            loads := loads st |}).

(** [self.active_plugins.append(plugin)] *)
Definition append_plugin (plugin : Plugin.t) : M unit :=
  λ st, (Ok tt,
         {| active_plugins := active_plugins st ++ [plugin];
            client_calls := client_calls st;
            loads := loads st |}).

(** The inner loop of [register_all]; the path handed to the logger is
    computed for every callback. *)
Fixpoint register_callbacks (path : string) (callbacks : list Callback.t)
    (active_commands : list Callback.t) : M (list Callback.t) :=
  match callbacks with
  | [] => ret active_commands
  | callback :: rest =>
      _ <- lift (_get_plugin_location path) ;;
      add_event_handler (Callback.callback callback) ;;;
      register_callbacks path rest (active_commands ++ [callback])
  end.

(** The body of the outer loop of [register_all]. *)
Definition register_file (entry : string * string) : M unit :=
  let '(plugin_name, path) := entry in
  plugin_info <- _get_plugin_info plugin_name path ;;
  callbacks <- _get_plugin_callbacks plugin_name path ;;
  active_commands <- register_callbacks path callbacks [] ;;
  append_plugin
    (Plugin.mk plugin_name (info_help plugin_info) active_commands path
               plugin_path (info_version plugin_info)).

Definition register_all : M (list Plugin.t) :=
  for_each _get_plugin_list register_file ;;;
  (λ st, (Ok (active_plugins st), st)).

(** [self.active_plugins.remove(plugin)]: drop the first equal element,
    [ValueError] when there is none. *)
Fixpoint list_remove (plugin : Plugin.t) (l : list Plugin.t)
  : option (list Plugin.t) :=
  match l with
  | [] => None
  | p :: l' =>
      if decide (p = plugin) then Some l'
      else match list_remove plugin l' with
           | Some r => Some (p :: r)
           | None => None
           end
  end.

Definition remove_plugin (plugin : Plugin.t) : M unit :=
  λ st, match list_remove plugin (active_plugins st) with
        | Some l => (Ok tt, {| active_plugins := l;
                               client_calls := client_calls st;
                               loads := loads st |})
        | None => (Raise ValueError, st)
        end.

Definition unregister_plugin (plugin : Plugin.t) : M unit :=
  for_each (Plugin.callbacks plugin)
           (λ callback, remove_event_handler (Callback.callback callback)) ;;;
  remove_plugin plugin.

(** [for plugin in self.active_plugins: ...] in [unregister_all].  The
    list iterator holds an index into the list itself, reads the element
    at that index and advances, and stops once the index is past the end
    of the list as it is then.  [fuel] bounds the number of rounds; the
    result is [None] when it does not suffice. *)
Fixpoint unregister_all_loop (fuel : nat) (builtins : bool) (i : nat)
    (st : state) : option (Result unit * state) :=
  match active_plugins st !! i with
  | None => Some (Ok tt, st)
  | Some plugin =>
      match fuel with
      | 0 => None
      | S fuel' =>
          let body : M unit :=
            if builtins then unregister_plugin plugin
            else
              path <- lift (Plugin.path (cwd E) plugin) ;;
              if negb (PyStr.startswith path "builtins/")
              then unregister_plugin plugin
              else ret tt in
          match body st with
          | (Ok _, st') => unregister_all_loop fuel' builtins (S i) st'
          | (Raise e, st') => Some (Raise e, st')
          end
      end
  end.

Definition unregister_all (builtins : bool) (st : state)
  : option (Result unit * state) :=
  unregister_all_loop (length (active_plugins st)) builtins 0 st.

End PluginManager.

(** ** The plugin shipped with the bot: [plugins/ping.py] *)

Module Ping.

(** The syntax tree of [plugins/ping.py]: four imports and the class. *)
Definition body : list stmt :=
  [ OtherStmt; OtherStmt; OtherStmt; OtherStmt;
    ClassDef "Ping" [Name "KantekPlugin"]
      [ Assign [Name "name"] (Str "Ping");
        Assign [Name "help"] (Str "Some help message");
        AsyncFunctionDef "ping"
          [ Call (Attribute (Name "events") "register")
                 [ Call (Name "NewMessage") []
                        [ ("outgoing", NameConstant (Some true));
                          ("pattern", OtherExpr) ] ]
                 [] ] ] ].

Definition ping : fdesc :=
  {| fd_fresh := true;
     fd_qualname := "Ping.ping";
     fd_doc := Some "Play ping pong 🏓";
     fd_is_handler := true |}.

Definition Ping : pyclass :=
  UserClass "Ping"
    {[ "name" := VStr "Ping";
       "help" := VStr "Some help message";
       "ping" := VFunc ping ]}.

(** The names the module binds once it has run. *)
Definition namespace : gmap string pyobj :=
  {[ "events" := OOther;
     "NewMessage" := OClass [UserClass "NewMessage" ∅];
     "cmd_prefix" := OOther;
     "KantekPlugin" := OClass [KantekPlugin];
     "Ping" := OClass [Ping; KantekPlugin] ]}.

Definition file : source := Module_ body (Ok namespace).

(** The bot started in [/kantek], with [ping.py] the only file under
    [/kantek/plugins]. *)
Definition E : env :=
  {| cwd := "/kantek";
     walk := [("/kantek/plugins", [], ["ping.py"])];
     sources := {[ "/kantek/plugins/ping.py" := file ]} |}.

End Ping.


(** A plugin directory whose only file is the empty file [happy.py]. *)
Module Happy.

Definition E : env :=
  {| cwd := "/kantek";
     walk := [("/kantek/plugins", [], ["happy.py"])];
     sources := {[ "/kantek/plugins/happy.py" := Module_ [] (Ok ∅) ]} |}.

(** The plugin [register_all] makes of it. *)
Definition plugin : Plugin.t :=
  Plugin.mk "happy" (VStr "") [] "/kantek/plugins/happy.py" "/kantek/plugins" "".

End Happy.

(** The plugin directory with a file that does not compile next to
    [ping.py]. *)
Module Broken.

Definition E : env :=
  {| cwd := "/kantek";
     walk := [("/kantek/plugins", [], ["broken.py"; "ping.py"])];
     sources := {[ "/kantek/plugins/broken.py" := BadSyntax;
                   "/kantek/plugins/ping.py" := Ping.file ]} |}.

End Broken.

(** A plugin class that declares nothing, in a file without a version:
    [from utils.pluginmgr import KantekPlugin] and
    [class Bare(KantekPlugin): pass]. *)
Module Bare.

Definition body : list stmt :=
  [ OtherStmt; ClassDef "Bare" [Name "KantekPlugin"] [OtherStmt] ].

Definition namespace : gmap string pyobj :=
  {[ "KantekPlugin" := OClass [KantekPlugin];
     "Bare" := OClass [UserClass "Bare" ∅; KantekPlugin] ]}.

Definition E : env :=
  {| cwd := "/kantek";
     walk := [("/kantek/plugins", [], ["bare.py"])];
     sources := {[ "/kantek/plugins/bare.py" := Module_ body (Ok namespace) ]} |}.

End Bare.

(** Two plugin files whose classes rebind their method to one handler
    imported from a module that stays loaded: [from shared import handler]
    and [class A(KantekPlugin)] with [async def go(event): ...] followed by
    [go = handler]. *)
Module Shared.

Definition handler : fdesc :=
  {| fd_fresh := false;
     fd_qualname := "shared.handler";
     fd_doc := None;
     fd_is_handler := true |}.

Definition body (cname : string) : list stmt :=
  [ OtherStmt; OtherStmt;
    ClassDef cname [Name "KantekPlugin"]
      [ AsyncFunctionDef "go"
          [ Call (Attribute (Name "events") "register")
                 [ Call (Name "NewMessage") [] [] ] [] ];
        Assign [Name "go"] (Name "handler") ] ].

Definition namespace (cname : string) : gmap string pyobj :=
  {[ "handler" := OOther;
     "KantekPlugin" := OClass [KantekPlugin];
     cname := OClass [UserClass cname {[ "go" := VFunc handler ]}; KantekPlugin] ]}.

Definition E : env :=
  {| cwd := "/kantek";
     walk := [("/kantek/plugins", [], ["a.py"; "b.py"])];
     sources :=
       {[ "/kantek/plugins/a.py" := Module_ (body "A") (Ok (namespace "A"));
          "/kantek/plugins/b.py" := Module_ (body "B") (Ok (namespace "B")) ]} |}.

End Shared.

(** A plugin file that assigns its version twice before it defines the
    class of [Bare]. *)
Module Versioned.

Definition body : list stmt :=
  [Assign [Name "__version__"] (Str "0.1.0")]
  ++ Assign [Name "__version__"] (Str "0.2.0") :: Bare.body.

Definition E : env :=
  {| cwd := "/kantek";
     walk := [("/kantek/plugins", [], ["v.py"])];
     sources := {[ "/kantek/plugins/v.py" := Module_ body (Ok Bare.namespace) ]} |}.

End Versioned.

(** A plugin file that unpacks a pair at its top level, [a, b = 1, 2],
    ahead of the class of [Bare]. *)
Module Unpacking.

Definition body : list stmt :=
  [OtherStmt] ++ Assign [OtherExpr] OtherExpr :: Bare.body.

Definition E : env :=
  {| cwd := "/kantek";
     walk := [("/kantek/plugins", [], ["u.py"])];
     sources := {[ "/kantek/plugins/u.py" := Module_ body (Ok Bare.namespace) ]} |}.

End Unpacking.

(** A plugin directory with a plugin under [builtins/] next to
    [ping.py]. *)
Module Builtins.

Definition E : env :=
  {| cwd := "/kantek";
     walk := [("/kantek/plugins", ["builtins"], ["ping.py"]);
              ("/kantek/plugins/builtins", [], ["info.py"])];
     sources := {[ "/kantek/plugins/ping.py" := Ping.file;
                   "/kantek/plugins/builtins/info.py" := Module_ [] (Ok ∅) ]} |}.

End Builtins.

(** ** Vocabulary of the properties *)

(** The keyword arguments include the flag [key]: the dictionary binds
    [key] to a boolean. *)
Definition has_flag (keywords : gmap string (option bool)) (key : string)
    (b : bool) : Prop :=
  keywords !! key = Some (Some b).

(** The keyword arguments carry no flag [key]: the key is missing, or it
    is bound to [None]. *)
Definition no_flag (keywords : gmap string (option bool)) (key : string) : Prop :=
  keywords !! key = None ∨ keywords !! key = Some None.

(** The three steps of the classification as the specification words
    them, each on the result of the step before. *)
Definition private_step1 : bool := false.

Definition private_step2 (keywords : gmap string (option bool)) (private : bool)
  : bool :=
  match keywords !! "incoming" with
  | Some (Some incoming) => negb incoming
  | _ => private
  end.

Definition private_step3 (keywords : gmap string (option bool)) (private : bool)
  : bool :=
  match keywords !! "outgoing" with
  | Some (Some outgoing) => outgoing
  | _ => private
  end.

(** The callables of the callbacks of a plugin. *)
Definition handles (p : Plugin.t) : list funcobj :=
  map Callback.callback (Plugin.callbacks p).

(** The calls [unregister_plugin] makes on the client for a plugin. *)
Definition removals (p : Plugin.t) : list client_call :=
  map RemoveEventHandler (handles p).

(** The calls [register_all] makes on the client for a plugin. *)
Definition additions (p : Plugin.t) : list client_call :=
  map AddEventHandler (handles p).

Definition set_calls (st : state) (calls : list client_call) : state :=
  {| active_plugins := active_plugins st;
     client_calls := calls;
     loads := loads st |}.

Definition set_active (st : state) (l : list Plugin.t) : state :=
  {| active_plugins := l;
     client_calls := client_calls st;
     loads := loads st |}.

(** Loading the file at [path] fails with [e]: the file does not compile,
    or executing its top level raises [e]. *)
Definition load_fails (E : env) (path : string) (e : exn) : Prop :=
  (sources E !! path = Some BadSyntax ∧ e = SyntaxError)
  ∨ ∃ body, sources E !! path = Some (Module_ body (Raise e)).

(** The statement assigns to the name [__version__]. *)
Definition assigns_version (item : stmt) : bool :=
  match item with
  | Assign (Name id :: _) _ => String.eqb id "__version__"
  | _ => false
  end.

(** The statement defines a class the manager takes for a plugin: a public
    name, at least one base, and in the namespace a class under
    [KantekPlugin]. *)
Definition is_plugin_class (ns : gmap string pyobj) (item : stmt) : bool :=
  match item with
  | ClassDef name bases _ =>
      plugin_class_candidate name bases
      && match ns !! name with
         | Some (OClass mro) => existsb is_KantekPlugin mro
         | _ => false
         end
  | _ => false
  end.

(** What [_get_plugin_info] takes for granted of a top-level statement:
    the first target of an assignment is a plain name, [__version__] is
    assigned a string literal, and the name of a public class with bases is
    bound to a class. *)
Definition info_safe (ns : gmap string pyobj) (item : stmt) : bool :=
  match item with
  | Assign (Name id :: _) value =>
      negb (String.eqb id "__version__")
      || match value with Str _ => true | _ => false end
  | Assign _ _ => false
  | ClassDef name bases _ =>
      negb (plugin_class_candidate name bases)
      || match ns !! name with
         | Some (OClass _) => true
         | _ => false
         end
  | _ => true
  end.

(** No class ahead of [KantekPlugin] in the resolution order [front ++
    KantekPlugin :: back] declares [attr]. *)
Definition undeclared (front : list pyclass) (attr : string) : Prop :=
  Forall (λ c, class_dict c !! attr = None) front.

(** What [_get_plugin_info] and [_get_plugin_callbacks] compute for the
    file at [path] when their execution of the file is the [n]-th one. *)
Definition info_at (E : env) (n : nat) (path : string) : Result plugin_info :=
  match sources E !! path with
  | None => Raise FileNotFoundError
  | Some BadSyntax => Raise SyntaxError
  | Some (Module_ body (Raise e)) => Raise e
  | Some (Module_ body (Ok ns)) =>
      rfold (info_item {| mod_load := n; mod_ns := ns |}) body
        {| info_version := ""; info_name := VStr ""; info_help := VStr "" |}
  end.

Definition callbacks_at (E : env) (n : nat) (path : string)
  : Result (list Callback.t) :=
  match sources E !! path with
  | None => Raise FileNotFoundError
  | Some BadSyntax => Raise SyntaxError
  | Some (Module_ body (Raise e)) => Raise e
  | Some (Module_ body (Ok ns)) =>
      rfold (callbacks_item {| mod_load := n; mod_ns := ns |}) body []
  end.

(** Two callbacks, or two plugins, that differ at most in the identity of
    the function objects they hold: the same file registered by two
    executions. *)
Definition cb_alike (c c' : Callback.t) : Prop :=
  Callback.name c = Callback.name c'
  ∧ Callback.help c = Callback.help c'
  ∧ Callback.private c = Callback.private c'
  ∧ fn_qualname (Callback.callback c) = fn_qualname (Callback.callback c').

Definition plugin_alike (p p' : Plugin.t) : Prop :=
  Plugin.name p = Plugin.name p'
  ∧ Plugin.full_path p = Plugin.full_path p'
  ∧ Plugin.plugin_path p = Plugin.plugin_path p'
  ∧ Plugin.version p = Plugin.version p'
  ∧ Forall2 cb_alike (Plugin.callbacks p) (Plugin.callbacks p').

(** Two results that raise the same exception or return related values. *)
Definition result_alike {A} (R : A → A → Prop) (r r' : Result A) : Prop :=
  match r, r' with
  | Ok a, Ok a' => R a a'
  | Raise e, Raise e' => e = e'
  | _, _ => False
  end.

(** The state after one more file has been registered as plugin [p]. *)
Definition registered (st : state) (p : Plugin.t) : state :=
  {| active_plugins := active_plugins st ++ [p];
     client_calls := client_calls st ++ additions p;
     loads := S (S (loads st)) |}.

(** No orphaned handler on either side: the callables in the handler
    table of the client are exactly the callables of the callbacks of the
    active plugins. *)
Definition no_orphans (st : state) : Prop :=
  ∀ h, h ∈ handler_table (client_calls st) ↔
       ∃ p, p ∈ active_plugins st ∧ h ∈ handles p.

(** The states the manager can be brought to, from the empty registry and
    a client without handlers, by calls of [register_all], [unregister_all]
    and [unregister_plugin]; [allowed st p] says which plugins
    [unregister_plugin] may be given in state [st].  A call that raises
    leaves the state it had reached. *)
Inductive reachable_with (E : env) (allowed : state → Plugin.t → Prop)
  : state → Prop :=
  | reach_initial :
      reachable_with E allowed initial
  | reach_register_all st :
      reachable_with E allowed st →
      reachable_with E allowed (snd (register_all E st))
  | reach_unregister_plugin st p :
      reachable_with E allowed st →
      allowed st p →
      reachable_with E allowed (snd (unregister_plugin p st))
  | reach_unregister_all st builtins r st' :
      reachable_with E allowed st →
      unregister_all E builtins st = Some (r, st') →
      reachable_with E allowed st'.

(** Reachable whatever [unregister_plugin] is given. *)
Definition reachable (E : env) : state → Prop :=
  reachable_with E (λ _ _, True).

(** Reachable when [unregister_plugin] is only given plugins of the active
    list. *)
Definition reachable_on_active (E : env) : state → Prop :=
  reachable_with E (λ st p, p ∈ active_plugins st).

(** Every handler found in a class of the file is a function that
    executing the file creates. *)
Definition defines_its_handlers (s : source) : Prop :=
  ∀ body ns cname mro c attr d,
    s = Module_ body (Ok ns) →
    ns !! cname = Some (OClass mro) →
    c ∈ mro →
    class_dict c !! attr = Some (VFunc d) →
    fd_is_handler d = true →
    fd_fresh d = true.

Definition fresh_handlers (E : env) : Prop :=
  ∀ path s, sources E !! path = Some s → defines_its_handlers s.

(** Two plugins without a common callable. *)
Definition disjoint_handles (p q : Plugin.t) : Prop :=
  ∀ h, h ∈ handles p → h ∉ handles q.

(** No callable belongs to two entries of the list. *)
Fixpoint pairwise_disjoint (l : list Plugin.t) : Prop :=
  match l with
  | [] => True
  | p :: l' => Forall (disjoint_handles p) l' ∧ pairwise_disjoint l'
  end.

(** Every callable of the active plugins was created by an execution that
    is over. *)
Definition handles_created (st : state) : Prop :=
  ∀ p h, p ∈ active_plugins st → h ∈ handles p →
         ∃ n, fn_created h = Some n ∧ n < loads st.

(** What the registry keeps true when it is used on its own plugins. *)
Definition registry_inv (st : state) : Prop :=
  no_orphans st
  ∧ handles_created st
  ∧ pairwise_disjoint (active_plugins st).

(** The shipped plugin under another name; it was never registered. *)
Definition pong (p : Plugin.t) : Plugin.t :=
  Plugin.mk "pong" (Plugin.help p) (Plugin.callbacks p) (Plugin.full_path p)
            (Plugin.plugin_path p) (Plugin.version p).

(** The second state has the registry and the client of the first one,
    and no fewer executions behind it. *)
Definition frame (st st' : state) : Prop :=
  active_plugins st' = active_plugins st
  ∧ client_calls st' = client_calls st
  ∧ loads st ≤ loads st'.

(** Every callable of the callbacks was created by execution [n]. *)
Definition created_at (n : nat) (callbacks : list Callback.t) : Prop :=
  Forall (λ cb, fn_created (Callback.callback cb) = Some n) callbacks.

(** The string has a character other than a dot. *)
Definition has_non_dot (s : string) : bool :=
  existsb (λ c, negb (Ascii.eqb c "."%char)) (PyStr.chars s).

(** The file names that [os.walk] reports are names, not paths: they hold
    no slash. *)
Definition plain_file_names (E : env) : Prop :=
  ∀ root dirs files file,
    (root, dirs, files) ∈ walk E → file ∈ files →
    PyStr.rfind OsPath.sep file = None.

(** The candidate a plugin was made from: its module name and its file. *)
Definition entry_of (p : Plugin.t) : string * string :=
  (Plugin.name p, Plugin.full_path p).

(** What a discovery pass that appended the plugins [new] has done to the
    state it started from. *)
Definition appended (E : env) (st st' : state) (new : list Plugin.t) : Prop :=
  active_plugins st' = active_plugins st ++ new
  ∧ client_calls st' = client_calls st ++ concat (map additions new)
  ∧ Forall (λ p, Plugin.plugin_path p = plugin_path E) new
  ∧ loads st ≤ loads st'.

(** Where a callback comes from: an [async def] in the body of a public
    top-level class with bases of the file, bound to a function that the
    event framework takes for a handler; the callback has the name of the
    method, the docstring of the function for its help, and the privacy
    computed from the decorators of the method. *)
Definition callback_origin (body : list stmt) (cb : Callback.t) : Prop :=
  fn_is_handler (Callback.callback cb) = true
  ∧ Callback.help cb = fn_doc (Callback.callback cb)
  ∧ ∃ cname bases cbody decorator_list keywords,
      ClassDef cname bases cbody ∈ body
      ∧ plugin_class_candidate cname bases = true
      ∧ AsyncFunctionDef (Callback.name cb) decorator_list ∈ cbody
      ∧ __get_event_decorator_keywords decorator_list = Ok keywords
      ∧ Callback.private cb = __is_private keywords.

(** The value of a computation that returned, the empty list otherwise. *)
Definition fst_ok {A} (r : Result (list A) * state) : list A :=
  match fst r with
  | Ok l => l
  | Raise _ => []
  end.

(** The constant that the last keyword argument named [key] with a
    constant for its value gives to [key], if there is one. *)
Fixpoint last_constant (keywords : list (string * expr)) (key : string)
  : option (option bool) :=
  match keywords with
  | [] => None
  | kw :: rest =>
      match last_constant rest key with
      | Some c => Some c
      | None =>
          match snd kw with
          | NameConstant c => if String.eqb (fst kw) key then Some c else None
          | _ => None
          end
      end
  end.




(** [plugin.path.startswith('builtins/')], false when the path cannot be
    computed. *)
Definition is_builtin (cwd : string) (p : Plugin.t) : bool :=
  match Plugin.path cwd p with
  | Ok path => PyStr.startswith path "builtins/"
  | Raise _ => false
  end.

(** Every callable of the plugin was created by execution [n] or a later
    one. *)
Definition created_since (n : nat) (p : Plugin.t) : Prop :=
  Forall (λ h, ∃ k, fn_created h = Some k ∧ n ≤ k) (handles p).

(** The string holds no slash. *)
Definition no_slash (s : string) : bool :=
  forallb (λ c, negb (Ascii.eqb c "/"%char)) (PyStr.chars s).

(** A name of a file or of a directory: not empty, not [.] or [..], and
    without a slash. *)
Definition clean_name (s : string) : bool :=
  negb (String.eqb s "") && negb (String.eqb s ".")
  && negb (String.eqb s "..") && no_slash s.

(** * Properties *)

(** ** [Plugin.path] *)

Example path_fun_ping :
  Plugin.path "/kantek"
    (Plugin.mk "ping" VNone [] "/kantek/plugins/fun/ping.py" "/kantek/plugins" "")
  = Ok "fun/ping".
Proof. reflexivity. Qed.

Example path_backslash :
  Plugin.path "/kantek"
    (Plugin.mk "ping" VNone [] "/kantek/plugins/fun\ping.py" "/kantek/plugins" "")
  = Ok "fun/ping".
Proof. reflexivity. Qed.

(** [rstrip] stops at the first character from the right that is not in
    the set. *)
Lemma rstrip_keeps (set s : string) (c : ascii) :
  PyStr.mem c set = false →
  PyStr.rstrip set (s +:+ String c "") = s +:+ String c "".
Proof.
  intros Hc. induction s as [|d s IH]; simpl.
  - by rewrite Hc.
  - rewrite IH. by destruct s.
Qed.

(** C1: the relative path of a registered plugin is not always its path
    under the plugin root without the extension.  The plugin registered for
    [<root>/happy.py], whose path relative to the root is [happy.py], gets
    the relative path [ha]: [rstrip('.py')] removes every trailing [.], [p]
    and [y], not the suffix [.py]. *)
Theorem C1_path_of_happy :
  let st := snd (register_all Happy.E initial) in
  map Plugin.full_path (active_plugins st) = ["/kantek/plugins/happy.py"]
  ∧ map (λ p, OsPath.relpath "/kantek" (Plugin.full_path p) (Plugin.plugin_path p))
        (active_plugins st) = [Ok "happy.py"]
  ∧ map (Plugin.path "/kantek") (active_plugins st) = [Ok "ha"]
  ∧ Ok "ha" ≠ Ok (A:=string) "happy".
Proof. vm_compute. repeat split; discriminate. Qed.

(** ** The privacy of a callback *)

Lemma get_flag keywords key b : has_flag keywords key b → get keywords key = Some b.
Proof. unfold has_flag, get. by intros ->. Qed.

Lemma get_no_flag keywords key : no_flag keywords key → get keywords key = None.
Proof. unfold no_flag, get. by intros [-> | ->]. Qed.

(** C2: [__is_private] is the three steps in their order (start from
    public, an [incoming] flag sets its negation, an [outgoing] flag then
    sets itself), so that [outgoing=True] gives private whatever [incoming]
    is, [incoming=False] without [outgoing] gives private, and no flag at
    all gives public. *)
Theorem C2_is_private (keywords : gmap string (option bool)) :
  __is_private keywords
  = private_step3 keywords (private_step2 keywords private_step1)
  ∧ (has_flag keywords "outgoing" true → __is_private keywords = true)
  ∧ (has_flag keywords "incoming" false → no_flag keywords "outgoing" →
     __is_private keywords = true)
  ∧ (no_flag keywords "incoming" → no_flag keywords "outgoing" →
     __is_private keywords = false).
Proof.
  split; [|split; [|split]].
  - unfold __is_private, private_step3, private_step2, private_step1, get.
    destruct (keywords !! "incoming") as [[i|]|], (keywords !! "outgoing") as [[o|]|];
      reflexivity.
  - intros Ho. unfold __is_private. rewrite (get_flag _ _ _ Ho).
    by destruct (get keywords "incoming").
  - intros Hi Ho. unfold __is_private.
    by rewrite (get_flag _ _ _ Hi), (get_no_flag _ _ Ho).
  - intros Hi Ho. unfold __is_private.
    by rewrite (get_no_flag _ _ Hi), (get_no_flag _ _ Ho).
Qed.

Lemma C2_is_private_witness :
  (has_flag {[ "outgoing" := Some true; "incoming" := Some true ]} "outgoing" true
   ∧ __is_private {[ "outgoing" := Some true; "incoming" := Some true ]} = true)
  ∧ (has_flag {[ "incoming" := Some false ]} "incoming" false
     ∧ no_flag {[ "incoming" := Some false ]} "outgoing"
     ∧ __is_private {[ "incoming" := Some false ]} = true)
  ∧ (no_flag ∅ "incoming"
     ∧ no_flag ∅ "outgoing"
     ∧ __is_private ∅ = false).
Proof.
  split; [|split].
  - split; [reflexivity|].
    apply (proj1 (proj2 (C2_is_private
             {[ "outgoing" := Some true; "incoming" := Some true ]}))).
    reflexivity.
  - split; [reflexivity|]. split; [left; reflexivity|].
    apply (proj1 (proj2 (proj2 (C2_is_private {[ "incoming" := Some false ]})))).
    + reflexivity.
    + left. reflexivity.
  - split; [left; reflexivity|]. split; [left; reflexivity|].
    apply (proj2 (proj2 (proj2 (C2_is_private ∅)))).
    + left. reflexivity.
    + left. reflexivity.
Defined.

(** ** Registering the shipped plugin *)

(** C3, as stated: the plugin registered for [plugins/ping.py] is not
    named [Ping]. *)
Lemma C3_name_is_not_Ping :
  ¬ ∃ p cb,
      active_plugins (snd (register_all Ping.E initial)) = [p]
      ∧ Plugin.path "/kantek" p = Ok "ping"
      ∧ Plugin.name p = "Ping"
      ∧ Plugin.callbacks p = [cb]
      ∧ Callback.name cb = "ping"
      ∧ Callback.private cb = true.
Proof.
  intros (p & cb & Hact & _ & Hname & _).
  vm_compute in Hact. injection Hact as <-. discriminate Hname.
Qed.

(** C3, amended: with [plugins/ping.py] the only file, [register_all]
    returns the active list, which holds exactly one plugin; its relative
    path is [ping], its name is the module name [ping] of the file (the
    [name] attribute [Ping] of the class is read by [_get_plugin_info] and
    not used), its help is the help of the class, and it has exactly one
    callback, named [ping] and private. *)
Theorem C3_register_ping :
  ∃ p cb st,
    register_all Ping.E initial = (Ok [p], st)
    ∧ active_plugins st = [p]
    ∧ Plugin.path "/kantek" p = Ok "ping"
    ∧ Plugin.name p = "ping"
    ∧ Plugin.help p = VStr "Some help message"
    ∧ Plugin.callbacks p = [cb]
    ∧ Callback.name cb = "ping"
    ∧ Callback.private cb = true
    ∧ rmap info_name
        (fst (_get_plugin_info Ping.E "ping" "/kantek/plugins/ping.py" initial))
      = Ok (VStr "Ping").
Proof.
  eexists _, _, _. split; [vm_compute; reflexivity|].
  repeat split.
Qed.

(** ** Unregistering *)

Lemma set_calls_id st : set_calls st (client_calls st) = st.
Proof. by destruct st. Qed.

Lemma for_each_remove (callbacks : list Callback.t) (st : state) :
  for_each callbacks
    (λ callback, remove_event_handler (Callback.callback callback)) st
  = (Ok tt,
     set_calls st
       (client_calls st
        ++ map RemoveEventHandler (map Callback.callback callbacks))).
Proof.
  revert st. induction callbacks as [|cb cbs IH]; intros st; simpl.
  - unfold ret. by rewrite app_nil_r, set_calls_id.
  - unfold bind at 1. simpl. rewrite IH. unfold set_calls. simpl.
    by rewrite <- app_assoc.
Qed.

(** [unregister_plugin] first tells the client to drop every callback of
    the plugin and only then looks for the plugin in the active list. *)
Lemma unregister_plugin_eq (p : Plugin.t) (st : state) :
  unregister_plugin p st
  = let st' := set_calls st (client_calls st ++ removals p) in
    match list_remove p (active_plugins st) with
    | Some l => (Ok tt, set_active st' l)
    | None => (Raise ValueError, st')
    end.
Proof.
  unfold unregister_plugin, bind. rewrite for_each_remove.
  unfold remove_plugin, removals, handles. simpl.
  by destruct (list_remove p (active_plugins st)).
Qed.

Lemma list_remove_None (p : Plugin.t) (l : list Plugin.t) :
  list_remove p l = None ↔ p ∉ l.
Proof.
  induction l as [|q l IH]; simpl.
  - split; [intros _; apply not_elem_of_nil | done].
  - rewrite not_elem_of_cons. case_decide as Hq.
    + split; [done | intros [Hne _]; by subst].
    + destruct (list_remove p l) eqn:Hr.
      * split; [done|]. intros [_ Hnin]. by apply IH in Hnin.
      * split; [|done]. intros _. split; [congruence | by apply IH].
Qed.

Lemma list_remove_length (p : Plugin.t) (l r : list Plugin.t) :
  list_remove p l = Some r → length l = S (length r).
Proof.
  revert r. induction l as [|q l IH]; intros r; simpl; [done|].
  case_decide; [by intros [= ->]|].
  destruct (list_remove p l) eqn:Hr; [|done].
  intros [= <-]. simpl. by rewrite (IH _ eq_refl).
Qed.

(** *** The handler table of the client *)

Lemma handler_table_app (calls calls' : list client_call) :
  handler_table (calls ++ calls')
  = fold_left client_step calls' (handler_table calls).
Proof. unfold handler_table. apply fold_left_app. Qed.

Lemma table_after_additions (hs table : list funcobj) :
  fold_left client_step (map AddEventHandler hs) table = table ++ hs.
Proof.
  revert table. induction hs as [|h hs IH]; intros table; simpl.
  - by rewrite app_nil_r.
  - rewrite IH. by rewrite <- app_assoc.
Qed.

Lemma table_after_removals (hs table : list funcobj) (h : funcobj) :
  h ∈ fold_left client_step (map RemoveEventHandler hs) table
  ↔ h ∈ table ∧ h ∉ hs.
Proof.
  revert table. induction hs as [|h' hs IH]; intros table; simpl.
  - split; [intros ?; split; [done | apply not_elem_of_nil] | by intros [? _]].
  - rewrite IH, list_elem_of_filter, not_elem_of_cons. tauto.
Qed.

(** C7: unregistering a plugin that is not in the active list raises
    [ValueError] (the not-found condition of [list.remove]); the call does
    not return normally. *)
Theorem C7_unregister_absent_raises (p : Plugin.t) (st : state) :
  p ∉ active_plugins st →
  fst (unregister_plugin p st) = Raise ValueError.
Proof.
  intros Hp. rewrite unregister_plugin_eq. simpl.
  apply list_remove_None in Hp. by rewrite Hp.
Qed.

Lemma C7_unregister_absent_raises_witness :
  (Happy.plugin ∉ active_plugins initial)
  ∧ fst (unregister_plugin Happy.plugin initial) = Raise ValueError.
Proof.
  split.
  - apply not_elem_of_nil.
  - apply C7_unregister_absent_raises. apply not_elem_of_nil.
Defined.

(** C10: when the plugin is not in the active list, the client has
    received a [remove_event_handler] call for every callback of the plugin,
    in order, by the time [ValueError] is raised.  The active list is as it
    was, while the handler table of the client has lost the callbacks of the
    plugin: it differs from the table before as soon as one of them was in
    it. *)
Theorem C10_failed_unregister_reaches_client (p : Plugin.t) (st : state) :
  p ∉ active_plugins st →
  ∃ st',
    unregister_plugin p st = (Raise ValueError, st')
    ∧ client_calls st' = client_calls st ++ removals p
    ∧ active_plugins st' = active_plugins st
    ∧ (∀ h, h ∈ handler_table (client_calls st') ↔
            h ∈ handler_table (client_calls st) ∧ h ∉ handles p)
    ∧ (∀ h, h ∈ handles p → h ∈ handler_table (client_calls st) →
            handler_table (client_calls st') ≠ handler_table (client_calls st)).
Proof.
  intros Hp. eexists. split.
  { rewrite unregister_plugin_eq. simpl.
    apply list_remove_None in Hp. rewrite Hp. reflexivity. }
  simpl. split; [done|]. split; [done|].
  assert (Htable : ∀ h, h ∈ handler_table (client_calls st ++ removals p) ↔
                        h ∈ handler_table (client_calls st) ∧ h ∉ handles p).
  { intros h. rewrite handler_table_app. apply table_after_removals. }
  split; [done|].
  intros h Hh Hin Heq. rewrite <- Heq in Hin.
  apply Htable in Hin as [_ Hnot]. by apply Hnot.
Qed.

Lemma C10_failed_unregister_reaches_client_witness :
  let p := hd Happy.plugin (active_plugins (snd (register_all Ping.E initial))) in
  let q := Plugin.mk "pong" (Plugin.help p) (Plugin.callbacks p)
             (Plugin.full_path p) (Plugin.plugin_path p) (Plugin.version p) in
  let st := snd (register_all Ping.E initial) in
  (q ∉ active_plugins st)
  ∧ ∃ st',
      unregister_plugin q st = (Raise ValueError, st')
      ∧ active_plugins st' = active_plugins st
      ∧ length (handler_table (client_calls st)) = 1
      ∧ handler_table (client_calls st') = [].
Proof.
  assert (Hq : Plugin.mk "pong" (VStr "Some help message")
                 (Plugin.callbacks
                    (hd Happy.plugin (active_plugins (snd (register_all Ping.E initial)))))
                 "/kantek/plugins/ping.py" "/kantek/plugins" ""
               ∉ active_plugins (snd (register_all Ping.E initial))).
  { vm_compute. intros H. apply list_elem_of_In in H. simpl in H.
    destruct H as [H | []]. discriminate H. }
  split; [exact Hq|].
  destruct (C10_failed_unregister_reaches_client _ _ Hq)
    as (st' & Hrun & Hcalls & Hact & _ & _).
  exists st'. split; [exact Hrun|]. split; [exact Hact|].
  split; [reflexivity|].
  rewrite Hcalls. reflexivity.
Defined.

(** *** [unregister_all] *)

Lemma list_remove_head (p : Plugin.t) (l : list Plugin.t) :
  list_remove p (p :: l) = Some l.
Proof. simpl. by rewrite decide_True. Qed.

(** The loop of [unregister_all] always ends within as many rounds as the
    active list is long when the loop starts. *)
Lemma unregister_all_loop_total E (fuel : nat) (builtins : bool) (i : nat)
    (st : state) :
  length (active_plugins st) ≤ fuel + i →
  is_Some (unregister_all_loop E fuel builtins i st).
Proof.
  revert i st. induction fuel as [|fuel IH]; intros i st Hlen; simpl.
  - rewrite (lookup_ge_None_2 (active_plugins st) i) by lia. eauto.
  - destruct (active_plugins st !! i) as [plugin|]; [|eauto].
    assert (Hstep : ∀ st', unregister_plugin plugin st = (Ok tt, st') →
                           length (active_plugins st') ≤ fuel + S i).
    { intros st'. rewrite unregister_plugin_eq. simpl.
      destruct (list_remove plugin (active_plugins st)) as [l|] eqn:Hr; [|done].
      intros [= <-]. simpl. apply list_remove_length in Hr. lia. }
    destruct builtins.
    + destruct (unregister_plugin plugin st) as [[[]|e] st'] eqn:Hrun; [|eauto].
      apply IH. by apply Hstep.
    + unfold bind, lift.
      destruct (Plugin.path (cwd E) plugin) as [path|e]; [|eauto].
      destruct (negb (PyStr.startswith path "builtins/")).
      * destruct (unregister_plugin plugin st) as [[[]|e] st'] eqn:Hrun; [|eauto].
        apply IH. by apply Hstep.
      * unfold ret. apply IH. lia.
Qed.

Lemma unregister_all_total E (builtins : bool) (st : state) :
  is_Some (unregister_all E builtins st).
Proof. apply unregister_all_loop_total. lia. Qed.

(** C4: [unregister_all(True)] does not empty an active list of two
    plugins.  The loop runs over the list that [unregister_plugin] shrinks:
    after the first plugin is removed the second one sits at index 0, the
    iterator moves on to index 1 and stops.  The second plugin stays active
    and the client is never told to drop its handlers: after two passes of
    [register_all] over the shipped plugin, one plugin and one entry of the
    handler table survive. *)
Theorem C4_unregister_all_skips_plugins :
  (∀ (E : env) (p1 p2 : Plugin.t) (calls : list client_call) (n : nat),
     unregister_all E true
       {| active_plugins := [p1; p2]; client_calls := calls; loads := n |}
     = Some (Ok tt,
             {| active_plugins := [p2];
                client_calls := calls ++ removals p1;
                loads := n |}))
  ∧ (let st := snd (register_all Ping.E (snd (register_all Ping.E initial))) in
     ∃ st', unregister_all Ping.E true st = Some (Ok tt, st')
            ∧ length (active_plugins st) = 2
            ∧ length (active_plugins st') = 1
            ∧ length (handler_table (client_calls st')) = 1).
Proof.
  split.
  - intros E p1 p2 calls n. unfold unregister_all. simpl.
    rewrite unregister_plugin_eq. cbn [active_plugins].
    rewrite list_remove_head. reflexivity.
  - eexists. split; [vm_compute; reflexivity|]. repeat split.
Qed.

(** ** A discovery pass over a file that cannot be loaded *)

Lemma for_each_app {A} (l1 l2 : list A) (body : A → M unit) (st : state) :
  for_each (l1 ++ l2) body st
  = match for_each l1 body st with
    | (Ok _, st') => for_each l2 body st'
    | (Raise e, st') => (Raise e, st')
    end.
Proof.
  revert st. induction l1 as [|x l1 IH]; intros st; simpl; [done|].
  unfold bind. destruct (body x st) as [[[]|e] st']; [apply IH | done].
Qed.

Lemma load_module_fails E (name path : string) (e : exn) (st : state) :
  load_fails E path e →
  ∃ st', load_module E name path st = (Raise e, st')
         ∧ active_plugins st' = active_plugins st
         ∧ client_calls st' = client_calls st.
Proof.
  unfold load_module. intros [[-> ->] | [body ->]]; eauto.
Qed.

Lemma register_file_fails E (name path : string) (e : exn) (st : state) :
  load_fails E path e →
  ∃ st', register_file E (name, path) st = (Raise e, st')
         ∧ active_plugins st' = active_plugins st
         ∧ client_calls st' = client_calls st.
Proof.
  intros Hfail.
  destruct (load_module_fails E name path e st Hfail) as (st' & Hload & Hst').
  exists st'. split; [|done].
  unfold register_file, _get_plugin_info, bind. by rewrite Hload.
Qed.

(** C5, as stated: with [broken.py] ahead of [ping.py] in the listing, the
    pass ends in [SyntaxError] and [ping.py], which registers fine on its
    own, is not registered. *)
Lemma C5_broken_file_stops_the_pass :
  map snd (_get_plugin_list Broken.E)
  = ["/kantek/plugins/broken.py"; "/kantek/plugins/ping.py"]
  ∧ map Plugin.full_path (active_plugins (snd (register_all Ping.E initial)))
    = ["/kantek/plugins/ping.py"]
  ∧ fst (register_all Broken.E initial) = Raise SyntaxError
  ∧ ¬ ∃ p, p ∈ active_plugins (snd (register_all Broken.E initial))
           ∧ Plugin.full_path p = "/kantek/plugins/ping.py".
Proof.
  repeat split; try reflexivity.
  intros (p & Hp & _). vm_compute in Hp. by apply elem_of_nil in Hp.
Qed.

(** C5, amended: when a candidate file cannot be loaded (a syntax error,
    or an exception raised by its top level), [register_all] raises that
    exception.  The registry and the client are left as the candidates
    before the failing file made them; neither the failing file nor the
    candidates after it are registered. *)
Theorem C5_register_all_aborts (E : env) (st st1 : state)
    (pre post : list (string * string)) (name path : string) (e : exn) :
  _get_plugin_list E = pre ++ (name, path) :: post →
  for_each pre (register_file E) st = (Ok tt, st1) →
  load_fails E path e →
  ∃ st2, register_all E st = (Raise e, st2)
         ∧ active_plugins st2 = active_plugins st1
         ∧ client_calls st2 = client_calls st1.
Proof.
  intros Hlist Hpre Hfail.
  destruct (register_file_fails E name path e st1 Hfail) as (st2 & Hrun & Hst2).
  exists st2. split; [|done].
  unfold register_all, bind. rewrite Hlist, for_each_app, Hpre.
  cbn [for_each]. unfold bind. by rewrite Hrun.
Qed.

Lemma C5_register_all_aborts_witness :
  _get_plugin_list Broken.E
  = [] ++ ("broken", "/kantek/plugins/broken.py")
          :: [("ping", "/kantek/plugins/ping.py")]
  ∧ for_each [] (register_file Broken.E) initial = (Ok tt, initial)
  ∧ load_fails Broken.E "/kantek/plugins/broken.py" SyntaxError
  ∧ ∃ st2, register_all Broken.E initial = (Raise SyntaxError, st2)
           ∧ active_plugins st2 = active_plugins initial
           ∧ client_calls st2 = client_calls initial.
Proof.
  assert (Hfail : load_fails Broken.E "/kantek/plugins/broken.py" SyntaxError).
  { left. split; reflexivity. }
  split; [reflexivity|]. split; [reflexivity|]. split; [exact Hfail|].
  apply (C5_register_all_aborts Broken.E initial initial []
           [("ping", "/kantek/plugins/ping.py")]
           "broken" "/kantek/plugins/broken.py" SyntaxError).
  - reflexivity.
  - reflexivity.
  - exact Hfail.
Defined.

(** ** Metadata of a plugin file *)

Lemma rfold_app {A S} (f : S → A → Result S) (l1 l2 : list A) (s : S) :
  rfold f (l1 ++ l2) s = rbind (rfold f l1 s) (rfold f l2).
Proof.
  revert s. induction l1 as [|x l1 IH]; intros s; simpl; [done|].
  destruct (f s x); simpl; [apply IH | done].
Qed.

Lemma mro_lookup_default (front back : list pyclass) (attr : string)
    (v : pyval fdesc) :
  class_dict KantekPlugin !! attr = Some v →
  undeclared front attr →
  mro_lookup (front ++ KantekPlugin :: back) attr = Some v.
Proof.
  intros Hv. induction 1 as [|c front Hc _ IH]; cbn [mro_lookup app].
  - by rewrite Hv.
  - by rewrite Hc.
Qed.

Lemma mro_lookup_is_Some (mro : list pyclass) (attr : string) :
  existsb is_KantekPlugin mro = true →
  is_Some (class_dict KantekPlugin !! attr) →
  is_Some (mro_lookup mro attr).
Proof.
  intros Hsub Hattr. induction mro as [|c mro IH]; [done|].
  cbn [mro_lookup]. destruct (class_dict c !! attr) eqn:Hc; [eauto|].
  destruct c as [|qualname dict]; [|by apply IH].
  rewrite Hc in Hattr. by destruct Hattr.
Qed.

(** A statement that [info_safe] accepts does not make the loop raise. *)
Lemma info_item_safe (m : module) (info : plugin_info) (item : stmt) :
  info_safe (mod_ns m) item = true →
  ∃ info', info_item m info item = Ok info'.
Proof.
  destruct item as [targets value|name bases body|name decos|]; simpl; eauto.
  - destruct targets as [|[id| | | | |] targets]; try done.
    destruct (String.eqb id "__version__"); simpl; [|eauto].
    destruct value; try done. eauto.
  - destruct (plugin_class_candidate name bases); simpl; [|eauto].
    unfold module_getattr.
    destruct (mod_ns m !! name) as [[mro|]|]; try done. intros _. simpl.
    destruct (existsb is_KantekPlugin mro) eqn:Hsub; [|eauto].
    destruct (mro_lookup_is_Some mro "name" Hsub) as [vn Hn]; [by eexists|].
    destruct (mro_lookup_is_Some mro "help" Hsub) as [vh Hh]; [by eexists|].
    rewrite Hn. simpl. rewrite Hh. simpl. eauto.
Qed.

Lemma rfold_info_safe (m : module) (items : list stmt) (info : plugin_info) :
  forallb (info_safe (mod_ns m)) items = true →
  ∃ info', rfold (info_item m) items info = Ok info'.
Proof.
  revert info. induction items as [|item items IH]; intros info; simpl; [eauto|].
  intros [Hitem Hitems]%andb_true_iff.
  destruct (info_item_safe m info item Hitem) as [info1 ->]. simpl. by apply IH.
Qed.

(** Only an assignment to [__version__] changes the version. *)
Lemma info_item_version (m : module) (info info' : plugin_info) (item : stmt) :
  assigns_version item = false →
  info_item m info item = Ok info' →
  info_version info' = info_version info.
Proof.
  destruct item as [targets value|name bases body|name decos|]; simpl.
  - destruct targets as [|[id| | | | |] targets]; try done.
    intros ->. by intros [= <-].
  - intros _. destruct (plugin_class_candidate name bases); [|by intros [= <-]].
    destruct (module_getattr m name) as [plugin|]; [simpl|done].
    destruct (issubclass plugin) as [[]|]; simpl; [|by intros [= <-]|done].
    destruct (getattr m plugin "name"); [simpl|done].
    destruct (getattr m plugin "help"); [simpl|done].
    by intros [= <-].
  - by intros _ [= <-].
  - by intros _ [= <-].
Qed.

Lemma rfold_info_version (m : module) (items : list stmt)
    (info info' : plugin_info) :
  Forall (λ item, assigns_version item = false) items →
  rfold (info_item m) items info = Ok info' →
  info_version info' = info_version info.
Proof.
  intros Hitems. revert info.
  induction Hitems as [|item items Hitem _ IH]; intros info; simpl.
  - by intros [= <-].
  - destruct (info_item m info item) as [info1|] eqn:Hstep; [simpl|done].
    intros Hrest. rewrite (IH _ Hrest).
    by apply (info_item_version m info info1 item).
Qed.

(** Only a plugin class changes the name and the help. *)
Lemma info_item_other (m : module) (info info' : plugin_info) (item : stmt) :
  is_plugin_class (mod_ns m) item = false →
  info_item m info item = Ok info' →
  info_name info' = info_name info ∧ info_help info' = info_help info.
Proof.
  destruct item as [targets value|name bases body|name decos|]; simpl.
  - intros _. destruct targets as [|[id| | | | |] targets]; try done.
    destruct (String.eqb id "__version__"); [|by intros [= <-]].
    destruct value; try done. by intros [= <-].
  - destruct (plugin_class_candidate name bases); [simpl|by intros _ [= <-]].
    unfold module_getattr.
    destruct (mod_ns m !! name) as [[mro|]|]; try done. simpl.
    intros ->. by intros [= <-].
  - by intros _ [= <-].
  - by intros _ [= <-].
Qed.

Lemma rfold_info_other (m : module) (items : list stmt)
    (info info' : plugin_info) :
  existsb (is_plugin_class (mod_ns m)) items = false →
  rfold (info_item m) items info = Ok info' →
  info_name info' = info_name info ∧ info_help info' = info_help info.
Proof.
  revert info. induction items as [|item items IH]; intros info; simpl.
  - by intros _ [= <-].
  - intros [Hitem Hitems]%orb_false_iff.
    destruct (info_item m info item) as [info1|] eqn:Hstep; [simpl|done].
    intros Hrest. destruct (IH _ Hitems Hrest) as [-> ->].
    by apply (info_item_other m info info1 item).
Qed.

(** A plugin class sets the name and the help to what attribute lookup
    finds, which is the default of [KantekPlugin] for an attribute that no
    class ahead of it declares. *)
Lemma info_item_plugin_class (m : module) (info info' : plugin_info)
    (name : string) (bases : list expr) (body : list stmt)
    (front back : list pyclass) :
  plugin_class_candidate name bases = true →
  mod_ns m !! name = Some (OClass (front ++ KantekPlugin :: back)) →
  info_item m info (ClassDef name bases body) = Ok info' →
  (undeclared front "name" → info_name info' = VNone)
  ∧ (undeclared front "help" → info_help info' = VNone).
Proof.
  intros Hcand Hns. simpl. rewrite Hcand. unfold module_getattr. rewrite Hns.
  simpl. rewrite existsb_app. simpl. rewrite orb_true_r.
  destruct (mro_lookup (front ++ KantekPlugin :: back) "name") as [vn|] eqn:Hn;
    [simpl|done].
  destruct (mro_lookup (front ++ KantekPlugin :: back) "help") as [vh|] eqn:Hh;
    [simpl|done].
  intros [= <-]. simpl. split; intros Hund.
  - rewrite (mro_lookup_default front back "name" VNone) in Hn; [|done|done].
    by injection Hn as <-.
  - rewrite (mro_lookup_default front back "help" VNone) in Hh; [|done|done].
    by injection Hh as <-.
Qed.

Lemma existsb_false_Forall {A} (f : A → bool) (l : list A) :
  existsb f l = false → Forall (λ x, f x = false) l.
Proof.
  induction l as [|x l IH]; simpl; [constructor|].
  intros [? ?]%orb_false_iff. constructor; auto.
Qed.

(** C6, as stated: for a plugin class that declares neither [name] nor
    [help], the extracted name and help are [None], the defaults of
    [KantekPlugin], not the empty string. *)
Lemma C6_missing_name_is_None :
  fst (_get_plugin_info Bare.E "bare" "/kantek/plugins/bare.py" initial)
  = Ok {| info_version := ""; info_name := VNone; info_help := VNone |}
  ∧ ¬ ∃ info st,
        _get_plugin_info Bare.E "bare" "/kantek/plugins/bare.py" initial
        = (Ok info, st)
        ∧ info_version info = ""
        ∧ info_name info = VStr ""
        ∧ info_help info = VStr "".
Proof.
  split; [reflexivity|].
  intros (info & st & Hrun & _ & Hname & _).
  vm_compute in Hrun. injection Hrun as <- _. discriminate Hname.
Qed.

(** C6, amended: take a file that loads and in which every top-level
    assignment binds a plain name, [__version__] is only assigned string
    literals, and every public class with bases is bound to a class.  Then
    [_get_plugin_info] does not raise.  The version is the empty string when
    the file does not assign [__version__]; and when the last plugin class
    of the file declares no [name] (no [help]), nor does any class ahead of
    [KantekPlugin] in its resolution order, the name (the help) is [None],
    the default of [KantekPlugin]. *)
Theorem C6_missing_metadata (E : env) (name path : string) (st : state)
    (ns : gmap string pyobj) (pre post cbody : list stmt) (cname : string)
    (bases : list expr) (front back : list pyclass) :
  sources E !! path
  = Some (Module_ (pre ++ ClassDef cname bases cbody :: post) (Ok ns)) →
  forallb (info_safe ns) (pre ++ ClassDef cname bases cbody :: post) = true →
  plugin_class_candidate cname bases = true →
  ns !! cname = Some (OClass (front ++ KantekPlugin :: back)) →
  existsb (is_plugin_class ns) post = false →
  ∃ info st',
    _get_plugin_info E name path st = (Ok info, st')
    ∧ (existsb assigns_version (pre ++ ClassDef cname bases cbody :: post) = false →
       info_version info = "")
    ∧ (undeclared front "name" → info_name info = VNone)
    ∧ (undeclared front "help" → info_help info = VNone).
Proof.
  intros Hsrc Hsafe Hcand Hns Hpost.
  set (m := {| mod_load := loads st; mod_ns := ns |}).
  set (info0 := {| info_version := ""; info_name := VStr ""; info_help := VStr "" |}).
  destruct (rfold_info_safe m _ info0 Hsafe) as [info Hinfo].
  exists info. eexists. split.
  { unfold _get_plugin_info, bind, load_module, lift, parse.
    rewrite Hsrc. fold m. fold info0. rewrite Hinfo. reflexivity. }
  split.
  { intros Hver. apply existsb_false_Forall in Hver.
    by rewrite (rfold_info_version m _ info0 info Hver Hinfo). }
  rewrite rfold_app in Hinfo.
  destruct (rfold (info_item m) pre info0) as [info1|]; [|done].
  cbn [rbind rfold] in Hinfo.
  destruct (info_item m info1 (ClassDef cname bases cbody)) as [info2|] eqn:Hcls;
    [|done].
  cbn [rbind] in Hinfo.
  destruct (rfold_info_other m post info2 info Hpost Hinfo) as [-> ->].
  by apply (info_item_plugin_class m info1 info2 cname bases cbody front back).
Qed.

Lemma C6_missing_metadata_witness :
  sources Bare.E !! "/kantek/plugins/bare.py"
  = Some (Module_ ([OtherStmt]
                   ++ ClassDef "Bare" [Name "KantekPlugin"] [OtherStmt] :: [])
                  (Ok Bare.namespace))
  ∧ forallb (info_safe Bare.namespace) Bare.body = true
  ∧ plugin_class_candidate "Bare" [Name "KantekPlugin"] = true
  ∧ Bare.namespace !! "Bare"
    = Some (OClass ([UserClass "Bare" ∅] ++ KantekPlugin :: []))
  ∧ existsb (is_plugin_class Bare.namespace) [] = false
  ∧ existsb assigns_version Bare.body = false
  ∧ undeclared [UserClass "Bare" ∅] "name"
  ∧ undeclared [UserClass "Bare" ∅] "help"
  ∧ ∃ info st',
      _get_plugin_info Bare.E "bare" "/kantek/plugins/bare.py" initial
      = (Ok info, st')
      ∧ info_version info = ""
      ∧ info_name info = VNone
      ∧ info_help info = VNone.
Proof.
  assert (Hname : undeclared [UserClass "Bare" ∅] "name") by (repeat constructor).
  assert (Hhelp : undeclared [UserClass "Bare" ∅] "help") by (repeat constructor).
  do 6 (split; [reflexivity|]). split; [exact Hname|]. split; [exact Hhelp|].
  destruct (C6_missing_metadata Bare.E "bare" "/kantek/plugins/bare.py" initial
              Bare.namespace [OtherStmt] [] [OtherStmt] "Bare"
              [Name "KantekPlugin"] [UserClass "Bare" ∅] [])
    as (info & st' & Hrun & Hver & Hn & Hh).
  - reflexivity.
  - reflexivity.
  - reflexivity.
  - reflexivity.
  - reflexivity.
  - exists info, st'. split; [exact Hrun|]. split; [|split].
    + apply Hver. reflexivity.
    + apply Hn. exact Hname.
    + apply Hh. exact Hhelp.
Defined.

(** ** Discovery passes that succeed *)

Lemma get_plugin_info_at E (name path : string) (st : state) :
  fst (_get_plugin_info E name path st) = info_at E (loads st) path.
Proof.
  unfold _get_plugin_info, info_at, bind, load_module, lift, parse.
  destruct (sources E !! path) as [[|body [ns|e]]|]; try done.
  all: by destruct (rfold _ _ _).
Qed.

Lemma get_plugin_info_Ok E (name path : string) (st st' : state)
    (info : plugin_info) :
  _get_plugin_info E name path st = (Ok info, st') →
  st' = {| active_plugins := active_plugins st;
           client_calls := client_calls st;
           loads := S (loads st) |}.
Proof.
  unfold _get_plugin_info, bind, load_module, lift, parse.
  destruct (sources E !! path) as [[|body [ns|e]]|]; try done.
  all: by destruct (rfold _ _ _); intros [= _ <-].
Qed.

Lemma get_plugin_callbacks_at E (name path : string) (st : state) :
  fst (_get_plugin_callbacks E name path st) = callbacks_at E (loads st) path.
Proof.
  unfold _get_plugin_callbacks, callbacks_at, bind, load_module, lift, parse.
  destruct (sources E !! path) as [[|body [ns|e]]|]; try done.
  all: by destruct (rfold _ _ _).
Qed.

Lemma get_plugin_callbacks_Ok E (name path : string) (st st' : state)
    (callbacks : list Callback.t) :
  _get_plugin_callbacks E name path st = (Ok callbacks, st') →
  st' = {| active_plugins := active_plugins st;
           client_calls := client_calls st;
           loads := S (loads st) |}.
Proof.
  unfold _get_plugin_callbacks, bind, load_module, lift, parse.
  destruct (sources E !! path) as [[|body [ns|e]]|]; try done.
  all: by destruct (rfold _ _ _); intros [= _ <-].
Qed.

(** The inner loop of [register_all]: without callbacks nothing happens;
    otherwise the location of the file is computed first, and when that
    works every callback goes to the client. *)
Lemma register_callbacks_Ok E (path : string) (callbacks acc : list Callback.t)
    (loc : string) (st : state) :
  _get_plugin_location E path = Ok loc →
  register_callbacks E path callbacks acc st
  = (Ok (acc ++ callbacks),
     set_calls st
       (client_calls st ++ map AddEventHandler (map Callback.callback callbacks))).
Proof.
  intros Hloc. revert acc st.
  induction callbacks as [|cb cbs IH]; intros acc st; simpl.
  - unfold ret. by rewrite !app_nil_r, set_calls_id.
  - unfold bind, lift. rewrite Hloc. simpl. rewrite IH.
    unfold set_calls. simpl. by rewrite <- !app_assoc.
Qed.

Lemma register_callbacks_Raise E (path : string) (cb : Callback.t)
    (callbacks acc : list Callback.t) (e : exn) (st : state) :
  _get_plugin_location E path = Raise e →
  register_callbacks E path (cb :: callbacks) acc st = (Raise e, st).
Proof. intros Hloc. simpl. unfold bind, lift. by rewrite Hloc. Qed.

(** Registering a file succeeds exactly when both extractions succeed and,
    if there are callbacks, the location of the file can be computed. *)
Lemma register_file_Ok E (name path : string) (st st' : state) :
  register_file E (name, path) st = (Ok tt, st') ↔
  ∃ info callbacks,
    info_at E (loads st) path = Ok info
    ∧ callbacks_at E (S (loads st)) path = Ok callbacks
    ∧ (callbacks = [] ∨ ∃ loc, _get_plugin_location E path = Ok loc)
    ∧ st' = registered st
              (Plugin.mk name (info_help info) callbacks path (plugin_path E)
                         (info_version info)).
Proof.
  unfold register_file, bind.
  pose proof (get_plugin_info_at E name path st) as Hinfo.
  destruct (_get_plugin_info E name path st) as [[info|e] st1] eqn:Hrun1;
    simpl in Hinfo.
  2:{ split; [done|]. intros (? & ? & Hi & _). congruence. }
  apply get_plugin_info_Ok in Hrun1 as ->.
  pose proof (get_plugin_callbacks_at E name path
                {| active_plugins := active_plugins st;
                   client_calls := client_calls st;
                   loads := S (loads st) |}) as Hcbs.
  destruct (_get_plugin_callbacks E name path _) as [[cbs|e] st2] eqn:Hrun2;
    simpl in Hcbs.
  2:{ split; [done|]. intros (? & ? & _ & Hc & _). congruence. }
  apply get_plugin_callbacks_Ok in Hrun2 as ->. simpl.
  destruct (_get_plugin_location E path) as [loc|e] eqn:Hloc.
  - rewrite (register_callbacks_Ok E path cbs [] loc _ Hloc). simpl.
    unfold append_plugin, registered, additions, handles. simpl. split.
    + intros [= <-]. exists info, cbs. eauto 10.
    + intros (info' & cbs' & Hi & Hc & _ & ->).
      rewrite <- Hinfo in Hi. rewrite <- Hcbs in Hc.
      by injection Hi as <-; injection Hc as <-.
  - destruct cbs as [|cb cbs].
    + simpl. unfold ret, append_plugin, registered, additions, handles. simpl.
      split.
      * intros [= <-]. exists info, []. simpl. rewrite app_nil_r. eauto 10.
      * intros (info' & cbs' & Hi & Hc & _ & ->).
        rewrite <- Hinfo in Hi. rewrite <- Hcbs in Hc.
        injection Hi as <-; injection Hc as <-. simpl. by rewrite app_nil_r.
    + rewrite (register_callbacks_Raise E path cb cbs [] e _ Hloc).
      split; [done|].
      intros (info' & cbs' & Hi & Hc & [-> | [loc Hloc']] & _).
      * rewrite <- Hcbs in Hc. done.
      * congruence.
Qed.

(** *** The same file registered by two executions *)

Lemma rfold_alike {A S} (R : S → S → Prop) (f f' : S → A → Result S)
    (l : list A) (s s' : S) :
  (∀ a b x, R a b → result_alike R (f a x) (f' b x)) →
  R s s' →
  result_alike R (rfold f l s) (rfold f' l s').
Proof.
  intros Hstep. revert s s'. induction l as [|x l IH]; intros s s' Hs; simpl.
  - done.
  - specialize (Hstep s s' x Hs).
    destruct (f s x), (f' s' x); simpl in *; try done. by apply IH.
Qed.

Lemma is_handler_instantiate (n : nat) (v : pyval fdesc) :
  is_handler (pyval_map (instantiate n) v)
  = match v with VFunc d => fd_is_handler d | _ => false end.
Proof. by destruct v. Qed.

Lemma callbacks_method_alike (n n' : nat) (ns : gmap string pyobj)
    (plugin : pyobj) (acc acc' : list Callback.t) (method : stmt) :
  Forall2 cb_alike acc acc' →
  result_alike (Forall2 cb_alike)
    (callbacks_method {| mod_load := n; mod_ns := ns |} plugin acc method)
    (callbacks_method {| mod_load := n'; mod_ns := ns |} plugin acc' method).
Proof.
  intros Hacc.
  destruct method as [targets value|name bases body|name decos|]; simpl; try done.
  unfold getattr. destruct plugin as [mro|]; [|done].
  destruct (mro_lookup mro name) as [v|]; [simpl|done].
  rewrite !is_handler_instantiate.
  destruct v as [|s|d|]; try done. simpl.
  destruct (fd_is_handler d); [|done].
  destruct (__get_event_decorator_keywords decos) as [keywords|]; [simpl|done].
  apply Forall2_app; [done|]. by repeat constructor.
Qed.

Lemma callbacks_item_alike (n n' : nat) (ns : gmap string pyobj)
    (acc acc' : list Callback.t) (item : stmt) :
  Forall2 cb_alike acc acc' →
  result_alike (Forall2 cb_alike)
    (callbacks_item {| mod_load := n; mod_ns := ns |} acc item)
    (callbacks_item {| mod_load := n'; mod_ns := ns |} acc' item).
Proof.
  intros Hacc.
  destruct item as [targets value|name bases body|name decos|]; simpl; try done.
  destruct (plugin_class_candidate name bases); [|done].
  unfold module_getattr. simpl.
  destruct (ns !! name) as [plugin|]; [simpl|done].
  destruct (issubclass plugin) as [[]|]; simpl; try done.
  apply rfold_alike; [|done].
  intros a b x Hab. by apply callbacks_method_alike.
Qed.

Lemma callbacks_at_alike E (n n' : nat) (path : string) :
  result_alike (Forall2 cb_alike) (callbacks_at E n path) (callbacks_at E n' path).
Proof.
  unfold callbacks_at.
  destruct (sources E !! path) as [[|body [ns|e]]|]; try done.
  apply rfold_alike; [|constructor].
  intros a b x Hab. by apply callbacks_item_alike.
Qed.

Lemma info_item_alike (n n' : nat) (ns : gmap string pyobj)
    (info info' : plugin_info) (item : stmt) :
  info_version info = info_version info' →
  result_alike (λ i i', info_version i = info_version i')
    (info_item {| mod_load := n; mod_ns := ns |} info item)
    (info_item {| mod_load := n'; mod_ns := ns |} info' item).
Proof.
  intros Hver.
  destruct item as [targets value|name bases body|name decos|]; simpl; try done.
  - destruct targets as [|[id| | | | |] targets]; try done.
    destruct (String.eqb id "__version__"); [|done].
    by destruct value.
  - destruct (plugin_class_candidate name bases); [|done].
    unfold module_getattr. simpl.
    destruct (ns !! name) as [plugin|]; [simpl|done].
    destruct (issubclass plugin) as [[]|]; simpl; try done.
    unfold getattr. destruct plugin as [mro|]; [|done].
    destruct (mro_lookup mro "name"); [simpl|done].
    by destruct (mro_lookup mro "help").
Qed.

Lemma info_at_alike E (n n' : nat) (path : string) :
  result_alike (λ i i', info_version i = info_version i')
    (info_at E n path) (info_at E n' path).
Proof.
  unfold info_at.
  destruct (sources E !! path) as [[|body [ns|e]]|]; try done.
  apply rfold_alike; [|done].
  intros a b x Hab. by apply info_item_alike.
Qed.

(** A file that registers in one state registers in any other, as a plugin
    that differs at most in the identity of its functions. *)
Lemma register_file_again E (name path : string) (st st' sta : state) :
  register_file E (name, path) st = (Ok tt, st') →
  ∃ p p',
    st' = registered st p
    ∧ register_file E (name, path) sta = (Ok tt, registered sta p')
    ∧ plugin_alike p p'
    ∧ Plugin.full_path p = path.
Proof.
  intros (info & cbs & Hinfo & Hcbs & Hloc & ->)%register_file_Ok.
  pose proof (info_at_alike E (loads st) (loads sta) path) as Hi.
  pose proof (callbacks_at_alike E (S (loads st)) (S (loads sta)) path) as Hc.
  rewrite Hinfo in Hi. rewrite Hcbs in Hc.
  destruct (info_at E (loads sta) path) as [info'|] eqn:Hinfo'; [|done].
  destruct (callbacks_at E (S (loads sta)) path) as [cbs'|] eqn:Hcbs'; [|done].
  simpl in Hi, Hc.
  eexists _, (Plugin.mk name (info_help info') cbs' path (plugin_path E)
                        (info_version info')).
  split; [reflexivity|]. split; [|split; [|done]].
  - apply register_file_Ok. exists info', cbs'. repeat split; try done.
    destruct Hloc as [-> | Hloc]; [|by right].
    left. by apply Forall2_nil_inv_l in Hc.
  - by repeat split.
Qed.

Lemma for_each_register_again E (entries : list (string * string))
    (st st1 sta : state) :
  for_each entries (register_file E) st = (Ok tt, st1) →
  ∃ new1 new2,
    st1 = fold_left registered new1 st
    ∧ for_each entries (register_file E) sta
      = (Ok tt, fold_left registered new2 sta)
    ∧ Forall2 plugin_alike new1 new2
    ∧ map Plugin.full_path new1 = map snd entries.
Proof.
  revert st sta. induction entries as [|[name path] entries IH]; intros st sta.
  - simpl. unfold ret. intros [= <-]. by exists [], [].
  - cbn [for_each]. unfold bind at 1.
    destruct (register_file E (name, path) st) as [[[]|e] st_mid] eqn:Hfile;
      [|done].
    intros Hrest.
    destruct (register_file_again E name path st st_mid sta Hfile)
      as (p & p' & -> & Hfile' & Hp & Hpath).
    destruct (IH _ (registered sta p') Hrest)
      as (new1 & new2 & -> & Hrest' & Hnew & Hpaths).
    exists (p :: new1), (p' :: new2). split; [done|]. split; [|split].
    + unfold bind. by rewrite Hfile'.
    + by constructor.
    + simpl. by rewrite Hpath, Hpaths.
Qed.

Lemma registered_active (new : list Plugin.t) (st : state) :
  active_plugins (fold_left registered new st) = active_plugins st ++ new.
Proof.
  revert st. induction new as [|p new IH]; intros st; simpl.
  - by rewrite app_nil_r.
  - rewrite IH. simpl. by rewrite <- app_assoc.
Qed.

Lemma registered_calls (new : list Plugin.t) (st : state) :
  client_calls (fold_left registered new st)
  = client_calls st ++ concat (map additions new).
Proof.
  revert st. induction new as [|p new IH]; intros st; simpl.
  - by rewrite app_nil_r.
  - rewrite IH. simpl. by rewrite <- app_assoc.
Qed.

Lemma additions_alike (new1 new2 : list Plugin.t) :
  Forall2 plugin_alike new1 new2 →
  length (concat (map additions new1)) = length (concat (map additions new2)).
Proof.
  induction 1 as [|p p' new1 new2 Hp _ IH]; simpl; [done|].
  rewrite !length_app, IH. f_equal.
  destruct Hp as (_ & _ & _ & _ & Hcbs).
  unfold additions, handles. rewrite !length_map.
  by apply Forall2_length in Hcbs.
Qed.

Lemma plugin_alike_paths (new1 new2 : list Plugin.t) :
  Forall2 plugin_alike new1 new2 →
  map Plugin.full_path new2 = map Plugin.full_path new1.
Proof.
  induction 1 as [|p p' new1 new2 Hp _ IH]; simpl; [done|].
  destruct Hp as (_ & -> & _). by rewrite IH.
Qed.

Lemma register_all_Ok E (st st1 : state) (plugins : list Plugin.t) :
  register_all E st = (Ok plugins, st1) ↔
  for_each (_get_plugin_list E) (register_file E) st = (Ok tt, st1)
  ∧ plugins = active_plugins st1.
Proof.
  unfold register_all, bind.
  destruct (for_each _ _ st) as [[[]|e] st']; split.
  - by intros [= <- <-].
  - by intros [[= <-] ->].
  - done.
  - by intros [? _].
Qed.

(** C9: [register_all] does not look at the paths that are registered
    already.  When a pass succeeds, a second pass over the same directory
    succeeds too; each pass appends one plugin per discovered file to the
    active list, the same paths in the same order, and the second pass asks
    the client for as many handlers as the first one, so that the entries and
    the handler additions of the first pass are there twice. *)
Theorem C9_register_all_twice (E : env) (st st1 : state)
    (plugins1 : list Plugin.t) :
  register_all E st = (Ok plugins1, st1) →
  ∃ new1 new2 st2,
    register_all E st1 = (Ok (active_plugins st2), st2)
    ∧ active_plugins st1 = active_plugins st ++ new1
    ∧ active_plugins st2 = active_plugins st ++ new1 ++ new2
    ∧ map Plugin.full_path new1 = map snd (_get_plugin_list E)
    ∧ map Plugin.full_path new2 = map snd (_get_plugin_list E)
    ∧ Forall2 plugin_alike new1 new2
    ∧ client_calls st1 = client_calls st ++ concat (map additions new1)
    ∧ client_calls st2 = client_calls st1 ++ concat (map additions new2)
    ∧ length (concat (map additions new2))
      = length (concat (map additions new1)).
Proof.
  intros [Hpass _]%register_all_Ok.
  destruct (for_each_register_again E _ st st1 st1 Hpass)
    as (new1 & new2 & Hst1 & Hpass2 & Hnew & Hpaths).
  exists new1, new2, (fold_left registered new2 st1).
  split; [by apply register_all_Ok|].
  rewrite (plugin_alike_paths new1 new2 Hnew), Hpaths.
  rewrite (additions_alike new1 new2 Hnew).
  subst st1. rewrite !registered_active, !registered_calls, <- app_assoc.
  repeat split; done.
Qed.

Lemma C9_register_all_twice_witness :
  register_all Ping.E initial
  = (Ok (active_plugins (snd (register_all Ping.E initial))),
     snd (register_all Ping.E initial))
  ∧ ∃ new1 new2 st2,
      register_all Ping.E (snd (register_all Ping.E initial))
      = (Ok (active_plugins st2), st2)
      ∧ active_plugins st2 = new1 ++ new2
      ∧ map Plugin.full_path new1 = ["/kantek/plugins/ping.py"]
      ∧ map Plugin.full_path new2 = ["/kantek/plugins/ping.py"]
      ∧ length (client_calls st2) = 2.
Proof.
  split; [reflexivity|].
  destruct (C9_register_all_twice Ping.E initial
              (snd (register_all Ping.E initial))
              (active_plugins (snd (register_all Ping.E initial))))
    as (new1 & new2 & st2 & Hrun & Hact1 & Hact2 & Hp1 & Hp2 & _ & Hc1 & Hc2 & Hlen).
  - reflexivity.
  - exists new1, new2, st2. split; [exact Hrun|]. split; [exact Hact2|].
    split; [exact Hp1|]. split; [exact Hp2|].
    rewrite Hc2, length_app, Hlen.
    change (client_calls initial) with (@nil client_call) in Hc1.
    simpl in Hc1. rewrite <- Hc1. reflexivity.
Defined.

(** ** The registry and the handler table of the client *)

(** C8, as stated: the invariant does not hold in every reachable state.
    After [register_all] over the shipped plugin, [unregister_plugin] on a
    plugin that is not active but holds the callback of the active one
    raises, and leaves the active plugin with a callback that the client no
    longer has. *)
Lemma C8_orphaned_callback :
  ¬ ∀ st, reachable Ping.E st → no_orphans st.
Proof.
  intros Hinv.
  set (st1 := snd (register_all Ping.E initial)).
  set (p := hd Happy.plugin (active_plugins st1)).
  set (st2 := snd (unregister_plugin (pong p) st1)).
  assert (Hreach : reachable Ping.E st2).
  { apply reach_unregister_plugin; [|done].
    apply reach_register_all, reach_initial. }
  set (h := hd (instantiate 0 Ping.ping) (handles p)).
  destruct (Hinv st2 Hreach h) as [_ Hback].
  assert (Htable : handler_table (client_calls st2) = []) by reflexivity.
  rewrite Htable in Hback.
  apply (not_elem_of_nil h), Hback.
  exists p. split.
  - assert (Hact : active_plugins st2 = [p]) by reflexivity.
    rewrite Hact. apply list_elem_of_here.
  - assert (Hh : handles p = [h]) by reflexivity.
    rewrite Hh. apply list_elem_of_here.
Qed.

Lemma frame_refl (st : state) : frame st st.
Proof. by repeat split. Qed.

Lemma frame_trans (st1 st2 st3 : state) :
  frame st1 st2 → frame st2 st3 → frame st1 st3.
Proof. intros (? & ? & ?) (? & ? & ?). repeat split; [congruence..|lia]. Qed.

Lemma registry_inv_frame (st st' : state) :
  frame st st' → registry_inv st → registry_inv st'.
Proof.
  intros (Hact & Hcalls & Hloads) (Horph & Hcreated & Hdisj).
  unfold registry_inv, no_orphans, handles_created.
  rewrite Hact, Hcalls. split; [done|]. split; [|done].
  intros p h Hp Hh. destruct (Hcreated p h Hp Hh) as (n & ? & ?).
  exists n. split; [done|lia].
Qed.

Lemma registry_inv_initial : registry_inv initial.
Proof.
  split; [|split]; [| |done].
  - intros h. split.
    + by intros ?%elem_of_nil.
    + by intros (p & ?%elem_of_nil & _).
  - by intros p h ?%elem_of_nil.
Qed.

(** *** Callables of a discovery pass are new *)

Lemma rfold_invariant {A S} (P : S → Prop) (f : S → A → Result S)
    (l : list A) (s s' : S) :
  (∀ a x a', P a → f a x = Ok a' → P a') →
  P s → rfold f l s = Ok s' → P s'.
Proof.
  intros Hstep. revert s. induction l as [|x l IH]; intros s Hs; simpl.
  - by intros [= <-].
  - destruct (f s x) as [s1|] eqn:Hf; [simpl|done]. eauto.
Qed.

Lemma mro_lookup_Some (mro : list pyclass) (attr : string) (v : pyval fdesc) :
  mro_lookup mro attr = Some v →
  ∃ c, c ∈ mro ∧ class_dict c !! attr = Some v.
Proof.
  induction mro as [|c mro IH]; [done|]. cbn [mro_lookup].
  destruct (class_dict c !! attr) as [v'|] eqn:Hc.
  - intros [= ->]. exists c. split; [apply list_elem_of_here | done].
  - intros (c' & Hin & Hv)%IH. exists c'. split; [by apply list_elem_of_further | done].
Qed.

Lemma callbacks_method_created (n : nat) (ns : gmap string pyobj)
    (mro : list pyclass) (acc acc' : list Callback.t) (method : stmt) :
  (∀ c attr d, c ∈ mro → class_dict c !! attr = Some (VFunc d) →
               fd_is_handler d = true → fd_fresh d = true) →
  created_at n acc →
  callbacks_method {| mod_load := n; mod_ns := ns |} (OClass mro) acc method
  = Ok acc' →
  created_at n acc'.
Proof.
  intros Hfresh Hacc.
  destruct method as [targets value|name bases body|name decos|]; simpl;
    try (by intros [= <-]).
  destruct (mro_lookup mro name) as [v|] eqn:Hv; [simpl|done].
  destruct v as [|s|d|]; simpl; try (by intros [= <-]).
  destruct (fd_is_handler d) eqn:Hd; [|by intros [= <-]].
  destruct (__get_event_decorator_keywords decos) as [keywords|]; [simpl|done].
  intros [= <-]. apply Forall_app. split; [done|].
  constructor; [|constructor]. simpl.
  apply mro_lookup_Some in Hv as (c & Hc & Hattr).
  by rewrite (Hfresh c name d Hc Hattr Hd).
Qed.

Lemma callbacks_item_created (n : nat) (ns : gmap string pyobj)
    (acc acc' : list Callback.t) (item : stmt) :
  (∀ body, defines_its_handlers (Module_ body (Ok ns))) →
  created_at n acc →
  callbacks_item {| mod_load := n; mod_ns := ns |} acc item = Ok acc' →
  created_at n acc'.
Proof.
  intros Hfresh Hacc.
  destruct item as [targets value|name bases body|name decos|]; simpl;
    try (by intros [= <-]).
  destruct (plugin_class_candidate name bases); [|by intros [= <-]].
  unfold module_getattr. simpl.
  destruct (ns !! name) as [plugin|] eqn:Hns; [simpl|done].
  destruct plugin as [mro|]; [simpl|done].
  destruct (existsb is_KantekPlugin mro); [|by intros [= <-]].
  apply rfold_invariant; [|done].
  intros a x a' Ha. apply callbacks_method_created; [|done].
  intros c attr d Hc Hattr Hd.
  by apply (Hfresh [] [] ns name mro c attr d).
Qed.

Lemma callbacks_at_created E (n : nat) (path : string)
    (callbacks : list Callback.t) :
  fresh_handlers E →
  callbacks_at E n path = Ok callbacks →
  created_at n callbacks.
Proof.
  intros Hfresh. unfold callbacks_at.
  destruct (sources E !! path) as [[|body [ns|e]]|] eqn:Hsrc; try done.
  apply rfold_invariant; [|constructor].
  intros a x a' Ha. apply callbacks_item_created; [|done].
  intros body' body'' ns' cname mro c attr d [= _ <-].
  by apply (Hfresh path _ Hsrc body ns).
Qed.

(** *** Registering keeps the invariant *)

Lemma get_plugin_info_frame E (name path : string) (st : state) :
  frame st (snd (_get_plugin_info E name path st)).
Proof.
  unfold _get_plugin_info, bind, load_module, lift, parse, frame.
  destruct (sources E !! path) as [[|body [ns|e]]|]; simpl; auto.
Qed.

Lemma get_plugin_callbacks_frame E (name path : string) (st : state) :
  frame st (snd (_get_plugin_callbacks E name path st)).
Proof.
  unfold _get_plugin_callbacks, bind, load_module, lift, parse, frame.
  destruct (sources E !! path) as [[|body [ns|e]]|]; simpl; auto.
Qed.

Lemma register_file_Raise E (name path : string) (st st' : state) (e : exn) :
  register_file E (name, path) st = (Raise e, st') → frame st st'.
Proof.
  unfold register_file, bind.
  pose proof (get_plugin_info_frame E name path st) as Hf1.
  destruct (_get_plugin_info E name path st) as [[info|e1] st1]; simpl in Hf1.
  2:{ by intros [= _ <-]. }
  pose proof (get_plugin_callbacks_frame E name path st1) as Hf2.
  destruct (_get_plugin_callbacks E name path st1) as [[cbs|e2] st2];
    simpl in Hf2.
  2:{ intros [= _ <-]. by apply (frame_trans st st1 st2). }
  destruct (_get_plugin_location E path) as [loc|e3] eqn:Hloc.
  - by rewrite (register_callbacks_Ok E path cbs [] loc st2 Hloc).
  - destruct cbs as [|cb cbs]; [done|].
    rewrite (register_callbacks_Raise E path cb cbs [] e3 st2 Hloc).
    intros [= _ <-]. by apply (frame_trans st st1 st2).
Qed.

Lemma pairwise_disjoint_snoc (l : list Plugin.t) (p : Plugin.t) :
  pairwise_disjoint l →
  Forall (λ q, disjoint_handles q p) l →
  pairwise_disjoint (l ++ [p]).
Proof.
  induction l as [|q l IH]; simpl; [done|].
  intros [Hq Hl] [Hqp Hlp]%Forall_cons. split; [|by apply IH].
  apply Forall_app. split; [done|]. by constructor.
Qed.

Lemma registry_inv_registered (st : state) (p : Plugin.t) :
  created_at (S (loads st)) (Plugin.callbacks p) →
  registry_inv st →
  registry_inv (registered st p).
Proof.
  intros Hnew (Horph & Hcreated & Hdisj).
  assert (Hp : ∀ h, h ∈ handles p → fn_created h = Some (S (loads st))).
  { intros h (cb & -> & Hcb)%list_elem_of_fmap.
    by apply (proj1 (Forall_forall _ _) Hnew). }
  split; [|split].
  - intros h. unfold registered. simpl.
    rewrite handler_table_app. unfold additions.
    rewrite table_after_additions, elem_of_app, (Horph h). split.
    + intros [(q & Hq & Hh) | Hh].
      * exists q. split; [|done]. apply elem_of_app. by left.
      * exists p. split; [|done]. apply elem_of_app. right. apply list_elem_of_here.
    + intros (q & [Hq | ->%list_elem_of_singleton]%elem_of_app & Hh); eauto.
  - intros q h [Hq | ->%list_elem_of_singleton]%elem_of_app Hh; simpl.
    + destruct (Hcreated q h Hq Hh) as (n & ? & ?). exists n. split; [done|lia].
    + exists (S (loads st)). split; [by apply Hp | lia].
  - simpl. apply pairwise_disjoint_snoc; [done|].
    apply Forall_forall. intros q Hq h Hhq Hhp.
    destruct (Hcreated q h Hq Hhq) as (n & Hn & Hlt).
    rewrite (Hp h Hhp) in Hn. injection Hn as <-. lia.
Qed.

Lemma registry_inv_register_file E (entry : string * string) (st : state) :
  fresh_handlers E →
  registry_inv st →
  registry_inv (snd (register_file E entry st)).
Proof.
  intros Hfresh Hinv. destruct entry as [name path].
  destruct (register_file E (name, path) st) as [[[]|e] st'] eqn:Hrun; simpl.
  - apply register_file_Ok in Hrun as (info & cbs & _ & Hcbs & _ & ->).
    apply registry_inv_registered; [|done]. simpl.
    by apply (callbacks_at_created E _ path).
  - apply register_file_Raise in Hrun. by apply (registry_inv_frame st).
Qed.

Lemma registry_inv_for_each E (entries : list (string * string)) (st : state) :
  fresh_handlers E →
  registry_inv st →
  registry_inv (snd (for_each entries (register_file E) st)).
Proof.
  intros Hfresh. revert st. induction entries as [|entry entries IH]; intros st Hinv.
  - done.
  - cbn [for_each]. unfold bind.
    pose proof (registry_inv_register_file E entry st Hfresh Hinv) as Hstep.
    destruct (register_file E entry st) as [[[]|e] st']; simpl in Hstep.
    + by apply IH.
    + done.
Qed.

Lemma registry_inv_register_all E (st : state) :
  fresh_handlers E →
  registry_inv st →
  registry_inv (snd (register_all E st)).
Proof.
  intros Hfresh Hinv. unfold register_all, bind.
  pose proof (registry_inv_for_each E (_get_plugin_list E) st Hfresh Hinv) as H.
  by destruct (for_each _ _ st) as [[[]|e] st'].
Qed.

(** *** Unregistering an active plugin keeps the invariant *)

Lemma disjoint_handles_sym (p q : Plugin.t) :
  disjoint_handles p q → disjoint_handles q p.
Proof. intros H h Hq Hp. by apply (H h). Qed.

Lemma list_remove_Some (p : Plugin.t) (l r : list Plugin.t) :
  list_remove p l = Some r →
  p ∈ l
  ∧ (∀ q, q ∈ r → q ∈ l)
  ∧ (∀ q, q ∈ l → q ≠ p → q ∈ r)
  ∧ (pairwise_disjoint l →
     pairwise_disjoint r ∧ Forall (disjoint_handles p) r).
Proof.
  revert r. induction l as [|q0 l IH]; intros r; simpl; [done|].
  case_decide as Hq0.
  - subst q0. intros [= <-]. split; [apply list_elem_of_here|].
    split; [intros q Hq; by apply list_elem_of_further|].
    split; [|simpl; tauto].
    intros q [->|Hq]%elem_of_cons Hne; done.
  - destruct (list_remove p l) as [r'|] eqn:Hr; [|done].
    intros [= <-].
    destruct (IH r' eq_refl) as (Hin & Hsub & Hkeep & Hdisj).
    split; [by apply list_elem_of_further|]. split; [|split].
    + intros q [->|Hq]%elem_of_cons.
      * apply list_elem_of_here.
      * apply list_elem_of_further. by apply Hsub.
    + intros q [->|Hq]%elem_of_cons Hne.
      * apply list_elem_of_here.
      * apply list_elem_of_further. by apply Hkeep.
    + simpl. intros [Hq0l Hl]. destruct (Hdisj Hl) as [Hr' Hpr'].
      split; [split; [|done]|].
      * apply Forall_forall. intros q Hq.
        by apply (proj1 (Forall_forall _ _) Hq0l), Hsub.
      * constructor; [|done].
        apply disjoint_handles_sym.
        by apply (proj1 (Forall_forall _ _) Hq0l).
Qed.

Lemma registry_inv_unregister_plugin (p : Plugin.t) (st : state) :
  p ∈ active_plugins st →
  registry_inv st →
  registry_inv (snd (unregister_plugin p st)).
Proof.
  intros Hp (Horph & Hcreated & Hdisj). rewrite unregister_plugin_eq.
  cbn zeta.
  destruct (list_remove p (active_plugins st)) as [r|] eqn:Hr.
  2:{ apply list_remove_None in Hr. done. }
  destruct (list_remove_Some p _ r Hr) as (_ & Hsub & Hkeep & Hdisj').
  destruct (Hdisj' Hdisj) as [Hr_disj Hp_disj].
  unfold registry_inv, no_orphans, handles_created.
  cbn [snd set_active set_calls active_plugins client_calls loads].
  split; [|split].
  - intros h. rewrite handler_table_app. unfold removals.
    rewrite table_after_removals, (Horph h). split.
    + intros [(q & Hq & Hh) Hnot]. exists q. split; [|done].
      apply Hkeep; [done|]. by intros ->.
    + intros (q & Hq & Hh). split; [by eauto|].
      intros Hhp.
      by apply (proj1 (Forall_forall _ _) Hp_disj q Hq h).
  - intros q h Hq Hh. by apply (Hcreated q h); [apply Hsub|].
  - done.
Qed.

Lemma registry_inv_unregister_all_loop E (fuel : nat) (builtins : bool)
    (i : nat) (st st' : state) (r : Result unit) :
  registry_inv st →
  unregister_all_loop E fuel builtins i st = Some (r, st') →
  registry_inv st'.
Proof.
  revert i st. induction fuel as [|fuel IH]; intros i st Hinv; simpl.
  - destruct (active_plugins st !! i); [done | by intros [= _ <-]].
  - destruct (active_plugins st !! i) as [plugin|] eqn:Hi;
      [|by intros [= _ <-]].
    pose proof (registry_inv_unregister_plugin plugin st
                  (list_elem_of_lookup_2 _ _ _ Hi) Hinv) as Hstep.
    destruct builtins.
    + destruct (unregister_plugin plugin st) as [[[]|e] st1]; simpl in Hstep.
      * by apply IH.
      * by intros [= _ <-].
    + unfold bind, lift.
      destruct (Plugin.path (cwd E) plugin) as [path|e];
        [|by intros [= _ <-]].
      destruct (negb (PyStr.startswith path "builtins/")).
      * destruct (unregister_plugin plugin st) as [[[]|e] st1]; simpl in Hstep.
        -- by apply IH.
        -- by intros [= _ <-].
      * unfold ret. by apply IH.
Qed.

(** C8, amended: take plugin files whose handlers are functions that the
    files themselves define.  In every state reached from the empty registry
    and a client without handlers by [register_all], [unregister_all], and
    [unregister_plugin] on plugins of the active list, whether the calls
    return or raise, the callables in the handler table of the client are
    exactly the callables of the callbacks of the active plugins. *)
Theorem C8_no_orphans_on_active (E : env) (st : state) :
  fresh_handlers E →
  reachable_on_active E st →
  no_orphans st.
Proof.
  intros Hfresh Hreach.
  cut (registry_inv st); [by intros [? _]|].
  induction Hreach as [|st _ IH|st p _ IH Hp|st builtins r st' _ IH Hrun].
  - apply registry_inv_initial.
  - by apply registry_inv_register_all.
  - by apply registry_inv_unregister_plugin.
  - by apply (registry_inv_unregister_all_loop E
                (length (active_plugins st)) builtins 0 st st' r).
Qed.

(** Case analysis on a lookup in a dictionary written out entry by
    entry: one goal for each entry, with [H] equating the value of the entry
    and the value looked up. *)
Ltac lookup_cases H :=
  repeat (apply lookup_insert_Some in H as [[_ H] | [_ H]]);
  try (apply lookup_singleton_Some in H as [_ H]);
  try (by apply lookup_empty_Some in H).

Lemma fresh_handlers_Ping : fresh_handlers Ping.E.
Proof.
  intros path s Hsrc body ns cname mro c attr d -> Hns Hc Hattr _.
  unfold Ping.E in Hsrc. cbn [sources] in Hsrc.
  apply lookup_singleton_Some in Hsrc as [_ [= _ <-]].
  assert (Hcases : c = KantekPlugin ∨ c = Ping.Ping ∨ c = UserClass "NewMessage" ∅).
  { unfold Ping.namespace in Hns. lookup_cases Hns; try discriminate Hns.
    all: injection Hns as <-.
    all: repeat (apply elem_of_cons in Hc as [-> | Hc]; [tauto|]).
    all: by apply elem_of_nil in Hc. }
  destruct Hcases as [-> | [-> | ->]]; unfold Ping.Ping in Hattr;
    cbn [class_dict] in Hattr; lookup_cases Hattr; try discriminate Hattr.
  by injection Hattr as <-.
Qed.

Lemma C8_no_orphans_on_active_witness :
  let st2 := snd (register_all Ping.E (snd (register_all Ping.E initial))) in
  let p := hd Happy.plugin (active_plugins st2) in
  let st3 := snd (unregister_plugin p st2) in
  fresh_handlers Ping.E
  ∧ reachable_on_active Ping.E st3
  ∧ no_orphans st3.
Proof.
  intros st2 p st3.
  assert (Hreach : reachable_on_active Ping.E st3).
  { apply reach_unregister_plugin.
    - apply reach_register_all, reach_register_all, reach_initial.
    - change (active_plugins st2) with (p :: tl (active_plugins st2)).
      apply list_elem_of_here. }
  split; [exact fresh_handlers_Ping|]. split; [exact Hreach|].
  apply (C8_no_orphans_on_active Ping.E).
  - exact fresh_handlers_Ping.
  - exact Hreach.
Defined.


(** The condition on the plugin files is needed: when two files bind the
    same imported handler, the two plugins hold one callable, and
    unregistering the first plugin takes the handler of the second one out
    of the table of the client. *)
Example shared_handler_is_orphaned :
  let st1 := snd (register_all Shared.E initial) in
  let p := hd Happy.plugin (active_plugins st1) in
  let st2 := snd (unregister_plugin p st1) in
  reachable_on_active Shared.E st2
  ∧ length (active_plugins st2) = 1
  ∧ handler_table (client_calls st2) = []
  ∧ ¬ no_orphans st2.
Proof.
  intros st1 p st2.
  assert (Hact : active_plugins st2 = tl (active_plugins st1)) by reflexivity.
  assert (Htable : handler_table (client_calls st2) = []) by reflexivity.
  split; [|split; [reflexivity|split; [exact Htable|]]].
  - apply reach_unregister_plugin.
    + apply reach_register_all, reach_initial.
    + change (active_plugins st1) with (p :: tl (active_plugins st1)).
      apply list_elem_of_here.
  - intros Hinv.
    destruct (Hinv (instantiate 0 Shared.handler)) as [_ Hback].
    rewrite Htable in Hback.
    apply (not_elem_of_nil (instantiate 0 Shared.handler)), Hback.
    exists (hd Happy.plugin (active_plugins st2)). split.
    + change (active_plugins st2)
        with (hd Happy.plugin (active_plugins st2) :: []).
      apply list_elem_of_here.
    + change (handles (hd Happy.plugin (active_plugins st2)))
        with [instantiate 0 Shared.handler].
      apply list_elem_of_here.
Qed.

(** * Further properties of the manager *)

(** ** Strings and paths *)

Lemma append_cons (c : ascii) (s t : string) :
  String c s +:+ t = String c (s +:+ t).
Proof. reflexivity. Qed.

Lemma append_empty_r (s : string) : s +:+ "" = s.
Proof. induction s as [|c s IH]; [done|]. by rewrite append_cons, IH. Qed.

Lemma append_assoc (s t u : string) : (s +:+ t) +:+ u = s +:+ (t +:+ u).
Proof. induction s as [|c s IH]; [done|]. by rewrite !append_cons, IH. Qed.

Lemma substring_all (s : string) : String.substring 0 (String.length s) s = s.
Proof. induction s as [|c s IH]; [done|]. simpl. by rewrite IH. Qed.

Lemma substring_split (n : nat) (s : string) :
  n ≤ String.length s →
  String.substring 0 n s +:+ String.substring n (String.length s - n) s = s.
Proof.
  revert n. induction s as [|c s IH]; intros [|n] Hn; simpl in *; try lia.
  - done.
  - by rewrite substring_all.
  - rewrite append_cons, IH by lia. done.
Qed.

Lemma substring_prefix (s t : string) :
  String.substring 0 (String.length s) (s +:+ t) = s.
Proof.
  induction s as [|c s IH]; [by destruct t|].
  rewrite append_cons. simpl. by rewrite IH.
Qed.

Lemma substring_suffix (s t : string) :
  String.substring (String.length s) (String.length t) (s +:+ t) = t.
Proof.
  induction s as [|c s IH]; [apply substring_all|].
  rewrite append_cons. simpl. apply IH.
Qed.

Lemma length_append (s t : string) :
  String.length (s +:+ t) = String.length s + String.length t.
Proof.
  induction s as [|c s IH]; [done|]. rewrite append_cons. simpl. by rewrite IH.
Qed.

Lemma rfind_lt (c : ascii) (s : string) (i : nat) :
  PyStr.rfind c s = Some i → i < String.length s.
Proof.
  revert i. induction s as [|d s IH]; intros i; simpl; [done|].
  destruct (PyStr.rfind c s) as [j|].
  - intros [= <-]. specialize (IH j eq_refl). lia.
  - destruct (Ascii.eqb d c); [|done]. intros [= <-]. lia.
Qed.

Lemma rfind_app (c : ascii) (s t : string) :
  PyStr.rfind c (s +:+ t)
  = match PyStr.rfind c t with
    | Some i => Some (String.length s + i)
    | None => PyStr.rfind c s
    end.
Proof.
  induction s as [|d s IH].
  - change ("" +:+ t) with t. by destruct (PyStr.rfind c t).
  - rewrite append_cons. simpl. rewrite IH. by destruct (PyStr.rfind c t).
Qed.

(** [os.path.splitext] cuts the path in two: root and extension put
    together are the path. *)
Lemma splitext_append (p root ext : string) :
  OsPath.splitext p = (root, ext) → root +:+ ext = p.
Proof.
  unfold OsPath.splitext.
  destruct (PyStr.rfind "." p) as [dot|] eqn:Hdot.
  2:{ intros [= <- <-]. apply append_empty_r. }
  destruct (_ && _)%bool.
  2:{ intros [= <- <-]. apply append_empty_r. }
  intros [= <- <-]. unfold PyStr.slice, PyStr.slice_from.
  rewrite Nat.sub_0_r. apply substring_split.
  apply rfind_lt in Hdot. lia.
Qed.

(** A file name has the extension [.py] exactly when it ends in [.py] and
    something other than dots comes before. *)
Lemma splitext_py (file name : string) :
  PyStr.rfind OsPath.sep file = None →
  OsPath.splitext file = (name, ".py")
  ↔ file = name +:+ ".py" ∧ has_non_dot name = true.
Proof.
  intros Hsep. split.
  - intros Hsplit. split; [symmetry; by apply splitext_append|].
    revert Hsplit. unfold OsPath.splitext. rewrite Hsep.
    destruct (PyStr.rfind "." file) as [dot|]; [|done].
    destruct (_ && _)%bool eqn:Hcond; [|done].
    apply andb_true_iff in Hcond as [_ Hcond].
    by intros [= <- _].
  - intros [-> Hname]. unfold OsPath.splitext. rewrite Hsep.
    rewrite rfind_app. cbn [PyStr.rfind Ascii.eqb]. simpl.
    unfold PyStr.slice, PyStr.slice_from.
    rewrite Nat.add_0_r, Nat.sub_0_r, substring_prefix.
    unfold has_non_dot in Hname. rewrite Hname. simpl.
    rewrite length_append. simpl.
    replace (String.length name + 3 - String.length name) with 3 by lia.
    f_equal. exact (substring_suffix name ".py").
Qed.

Lemma in_get_plugin_list E (name path : string) :
  (name, path) ∈ _get_plugin_list E ↔
  ∃ root dirs files file,
    (root, dirs, files) ∈ walk E ∧ file ∈ files
    ∧ OsPath.splitext file = (name, ".py")
    ∧ path = OsPath.join root [file].
Proof.
  unfold _get_plugin_list. rewrite list_elem_of_In, in_flat_map. split.
  - intros ([[root dirs] files] & Hwalk & Hin).
    apply in_flat_map in Hin as (file & Hfile & Hin).
    destruct (OsPath.splitext file) as [name' ext] eqn:Hsplit.
    destruct (String.eqb ext ".py") eqn:Hext; [|done].
    apply String.eqb_eq in Hext as ->.
    destruct Hin as [[= <- <-]|[]].
    exists root, dirs, files, file.
    split; [by apply list_elem_of_In|]. split; [by apply list_elem_of_In|].
    done.
  - intros (root & dirs & files & file & Hwalk & Hfile & Hsplit & ->).
    exists (root, dirs, files). split; [by apply list_elem_of_In|].
    apply in_flat_map. exists file. split; [by apply list_elem_of_In|].
    rewrite Hsplit. simpl. by left.
Qed.

(** X1: the scanner lists exactly the files named [<name>.py] in which
    [<name>] is not made of dots only, each with the module name [<name>] and
    the path joined from its directory and its file name. *)
Theorem X1_plugin_list_entries (E : env) (name path : string) :
  plain_file_names E →
  (name, path) ∈ _get_plugin_list E ↔
  ∃ root dirs files,
    (root, dirs, files) ∈ walk E
    ∧ (name +:+ ".py") ∈ files
    ∧ has_non_dot name = true
    ∧ path = OsPath.join root [name +:+ ".py"].
Proof.
  intros Hplain. rewrite in_get_plugin_list. split.
  - intros (root & dirs & files & file & Hwalk & Hfile & Hsplit & ->).
    apply splitext_py in Hsplit as [-> Hname]; [|by eapply Hplain].
    by exists root, dirs, files.
  - intros (root & dirs & files & Hwalk & Hfile & Hname & ->).
    exists root, dirs, files, (name +:+ ".py").
    repeat split; try done.
    apply splitext_py; [by eapply Hplain | done].
Qed.

Lemma plain_file_names_Ping : plain_file_names Ping.E.
Proof.
  intros root dirs files file Hwalk Hfile.
  apply list_elem_of_singleton in Hwalk. injection Hwalk as -> -> ->.
  by apply list_elem_of_singleton in Hfile as ->.
Qed.

Lemma X1_plugin_list_entries_witness :
  plain_file_names Ping.E
  ∧ (("ping", "/kantek/plugins/ping.py") ∈ _get_plugin_list Ping.E ↔
     ∃ root dirs files,
       (root, dirs, files) ∈ walk Ping.E
       ∧ ("ping" +:+ ".py") ∈ files
       ∧ has_non_dot "ping" = true
       ∧ "/kantek/plugins/ping.py" = OsPath.join root ["ping" +:+ ".py"]).
Proof.
  split; [exact plain_file_names_Ping|].
  apply (X1_plugin_list_entries Ping.E "ping" "/kantek/plugins/ping.py").
  exact plain_file_names_Ping.
Defined.

(** *** The relative path of a plugin *)

Lemma replace_chars (old new : ascii) (s : string) :
  PyStr.chars (PyStr.replace old new s)
  = map (λ c, if Ascii.eqb c old then new else c) (PyStr.chars s).
Proof. induction s as [|c s IH]; [done|]. simpl. by rewrite <- IH. Qed.

Lemma replace_removes (old new : ascii) (s : string) :
  old ≠ new → old ∉ PyStr.chars (PyStr.replace old new s).
Proof.
  intros Hne. rewrite replace_chars. intros Hin.
  apply list_elem_of_fmap in Hin as (c & Hc & _).
  destruct (Ascii.eqb c old) eqn:Heq; [done|].
  apply Ascii.eqb_neq in Heq. by subst.
Qed.

Lemma rstrip_last (set s : string) (c : ascii) :
  PyStr.endswith_char (PyStr.rstrip set s) c = true → PyStr.mem c set = false.
Proof.
  induction s as [|d s IH]; simpl; [done|].
  destruct (PyStr.rstrip set s) as [|e r] eqn:Hr.
  - destruct (PyStr.mem d set) eqn:Hd; simpl; [done|].
    intros ->%Ascii.eqb_eq. done.
  - simpl in *. done.
Qed.

Lemma replace_last (old new : ascii) (s : string) (c : ascii) :
  PyStr.endswith_char (PyStr.replace old new s) c = true →
  ∃ d, PyStr.endswith_char s d = true ∧ c = if Ascii.eqb d old then new else d.
Proof.
  induction s as [|d s IH]; simpl; [done|].
  destruct s as [|e s]; simpl in *.
  - intros <-%Ascii.eqb_eq. exists d. by rewrite Ascii.eqb_refl.
  - done.
Qed.

Lemma rstrip_app (set s t : string) :
  PyStr.rstrip set t = "" → PyStr.rstrip set (s +:+ t) = PyStr.rstrip set s.
Proof.
  intros Ht. induction s as [|d s IH]; [done|].
  rewrite append_cons. simpl. by rewrite IH.
Qed.

Lemma relpath_Ok (cwd path start : string) :
  path ≠ "" → ∃ rel, OsPath.relpath cwd path start = Ok rel.
Proof.
  intros Hne%String.eqb_neq. unfold OsPath.relpath. rewrite Hne.
  match goal with
  | |- context [match ?l with [] => _ | a :: q => _ end] => destruct l
  end; eauto.
Qed.

Lemma location_shape (rel : string) :
  let r := PyStr.replace "\" "/" (PyStr.rstrip ".py" rel) in
  ("\"%char ∉ PyStr.chars r)
  ∧ ∀ c, PyStr.endswith_char r c = true →
         c ≠ "."%char ∧ c ≠ "p"%char ∧ c ≠ "y"%char.
Proof.
  split; [by apply replace_removes|].
  intros c (d & Hd%rstrip_last & ->)%replace_last.
  unfold PyStr.mem in Hd. simpl in Hd.
  apply orb_false_iff in Hd as [H1 Hd].
  apply orb_false_iff in Hd as [H2 Hd].
  apply orb_false_iff in Hd as [H3 _].
  apply Ascii.eqb_neq in H1, H2, H3.
  by destruct (Ascii.eqb d "\").
Qed.

(** X2: the relative path of a plugin exists unless the plugin has the
    empty string for its full path, in which case computing it raises
    [ValueError]; it holds no backslash, and it never ends in a dot, a [p]
    or a [y]. *)
Theorem X2_path_shape (cwd : string) (p : Plugin.t) :
  (Plugin.full_path p = "" → Plugin.path cwd p = Raise ValueError)
  ∧ (Plugin.full_path p ≠ "" →
     ∃ r, Plugin.path cwd p = Ok r
          ∧ ("\"%char ∉ PyStr.chars r)
          ∧ ∀ c, PyStr.endswith_char r c = true →
                 c ≠ "."%char ∧ c ≠ "p"%char ∧ c ≠ "y"%char).
Proof.
  unfold Plugin.path. split.
  - by intros ->.
  - intros Hne.
    destruct (relpath_Ok cwd _ (Plugin.plugin_path p) Hne) as [rel ->].
    eexists. split; [reflexivity|]. apply location_shape.
Qed.

Lemma X2_path_shape_witness :
  Plugin.full_path Happy.plugin ≠ ""
  ∧ ∃ r, Plugin.path "/kantek" Happy.plugin = Ok r
         ∧ ("\"%char ∉ PyStr.chars r)
         ∧ ∀ c, PyStr.endswith_char r c = true →
                c ≠ "."%char ∧ c ≠ "p"%char ∧ c ≠ "y"%char.
Proof.
  split; [discriminate|].
  apply (X2_path_shape "/kantek" Happy.plugin). discriminate.
Defined.

(** X3: when the path of the file relative to the plugin root is
    [<stem>.py] and [<stem>] ends in a character other than a dot, a [p] or
    a [y], the relative path of the plugin is [<stem>] with every backslash
    turned into a slash. *)
Theorem X3_path_strips_extension (cwd : string) (p : Plugin.t)
    (stem : string) (c : ascii) :
  OsPath.relpath cwd (Plugin.full_path p) (Plugin.plugin_path p)
  = Ok (stem +:+ String c ".py") →
  PyStr.mem c ".py" = false →
  Plugin.path cwd p = Ok (PyStr.replace "\" "/" (stem +:+ String c "")).
Proof.
  intros Hrel Hc. unfold Plugin.path. rewrite Hrel. simpl. do 2 f_equal.
  change (String c ".py") with (String c "" +:+ ".py").
  rewrite <- append_assoc, rstrip_app by reflexivity.
  by apply rstrip_keeps.
Qed.

Lemma X3_path_strips_extension_witness :
  OsPath.relpath "/kantek" "/kantek/plugins/fun/ping.py" "/kantek/plugins"
  = Ok ("fun/pin" +:+ String "g" ".py")
  ∧ PyStr.mem "g" ".py" = false
  ∧ Plugin.path "/kantek"
      (Plugin.mk "ping" VNone [] "/kantek/plugins/fun/ping.py" "/kantek/plugins" "")
    = Ok (PyStr.replace "\" "/" ("fun/pin" +:+ String "g" "")).
Proof.
  split; [reflexivity|]. split; [reflexivity|].
  apply (X3_path_strips_extension "/kantek"
           (Plugin.mk "ping" VNone [] "/kantek/plugins/fun/ping.py"
                      "/kantek/plugins" "")
           "fun/pin" "g").
  - reflexivity.
  - reflexivity.
Defined.

(** ** What a discovery pass does to the registry *)

Lemma register_file_outcome E (entry : string * string) (st : state) :
  (∃ p, register_file E entry st = (Ok tt, registered st p)
        ∧ entry_of p = entry
        ∧ Plugin.plugin_path p = plugin_path E)
  ∨ (∃ e st', register_file E entry st = (Raise e, st') ∧ frame st st').
Proof.
  destruct entry as [name path].
  destruct (register_file E (name, path) st) as [[[]|e] st'] eqn:Hrun.
  - left. apply register_file_Ok in Hrun as (info & cbs & _ & _ & _ & ->).
    by eexists.
  - right. exists e, st'. split; [done|].
    by apply (register_file_Raise E name path st st' e).
Qed.

Lemma for_each_register_outcome E (entries : list (string * string))
    (st : state) :
  ∃ new,
    appended E st (snd (for_each entries (register_file E) st)) new
    ∧ map entry_of new `prefix_of` entries
    ∧ (fst (for_each entries (register_file E) st) = Ok tt →
       map entry_of new = entries
       ∧ loads (snd (for_each entries (register_file E) st))
         = loads st + 2 * length entries).
Proof.
  revert st. induction entries as [|entry entries IH]; intros st.
  - exists []. simpl. unfold appended. rewrite !app_nil_r.
    repeat split; first [done | lia | auto].
  - cbn [for_each]. unfold bind.
    destruct (register_file_outcome E entry st)
      as [(p & Hrun & Hentry & Hpath) | (e & st' & Hrun & Hact & Hcalls & Hloads)];
      rewrite Hrun; cbv beta iota.
    + destruct (IH (registered st p))
        as (new & (Hact & Hcalls & Hpaths & Hloads) & Hpre & Hok).
      exists (p :: new). split; [|split].
      * unfold appended. rewrite Hact, Hcalls. simpl in *.
        rewrite <- !app_assoc. repeat split; first [by constructor | lia].
      * simpl. rewrite Hentry. by apply prefix_cons.
      * intros Hfst. destruct (Hok Hfst) as [Hall Hl]. simpl.
        rewrite Hentry, Hall, Hl. simpl. split; [done|lia].
    + exists []. simpl. unfold appended. rewrite Hact, Hcalls, !app_nil_r.
      repeat split; first [done | lia | apply prefix_nil | auto].
Qed.

(** X4: whether it returns or raises, [register_all] only adds: the
    plugins that were active stay where they are, the client is only asked
    to add handlers, and the plugins appended are those of the first
    candidates of the listing, in order, each with exactly its own callbacks
    added to the client and with the plugin root of the manager.  No
    candidate is left half registered. *)
Theorem X4_register_all_only_adds (E : env) (st : state) :
  ∃ new,
    appended E st (snd (register_all E st)) new
    ∧ map entry_of new `prefix_of` _get_plugin_list E.
Proof.
  destruct (for_each_register_outcome E (_get_plugin_list E) st)
    as (new & Happ & Hpre & _).
  exists new. unfold register_all, bind.
  by destruct (for_each _ _ st) as [[[]|e] st'].
Qed.

(** X5: a pass of [register_all] that returns has made one plugin of
    every candidate of the listing, in order, has executed every candidate
    file exactly twice, and returns the active list. *)
Theorem X5_register_all_returns (E : env) (st st' : state)
    (plugins : list Plugin.t) :
  register_all E st = (Ok plugins, st') →
  ∃ new,
    appended E st st' new
    ∧ map entry_of new = _get_plugin_list E
    ∧ plugins = active_plugins st ++ new
    ∧ loads st' = loads st + 2 * length (_get_plugin_list E).
Proof.
  intros [Hpass ->]%register_all_Ok.
  destruct (for_each_register_outcome E (_get_plugin_list E) st)
    as (new & Happ & _ & Hok).
  rewrite Hpass in Happ, Hok. simpl in Happ, Hok.
  destruct (Hok eq_refl) as [Hall Hloads].
  exists new. split; [done|]. split; [done|].
  split; [by destruct Happ | done].
Qed.

Lemma X5_register_all_returns_witness :
  register_all Ping.E initial
  = (Ok (active_plugins (snd (register_all Ping.E initial))),
     snd (register_all Ping.E initial))
  ∧ ∃ new,
      appended Ping.E initial (snd (register_all Ping.E initial)) new
      ∧ map entry_of new = _get_plugin_list Ping.E
      ∧ active_plugins (snd (register_all Ping.E initial))
        = active_plugins initial ++ new
      ∧ loads (snd (register_all Ping.E initial))
        = loads initial + 2 * length (_get_plugin_list Ping.E).
Proof.
  split; [reflexivity|].
  apply (X5_register_all_returns Ping.E initial). reflexivity.
Defined.

(** ** Where callbacks come from *)

Lemma rfold_invariant_in {A S} (P : S → Prop) (f : S → A → Result S)
    (l : list A) (s s' : S) :
  (∀ a x a', x ∈ l → P a → f a x = Ok a' → P a') →
  P s → rfold f l s = Ok s' → P s'.
Proof.
  revert s. induction l as [|x l IH]; intros s Hstep Hs; simpl.
  - by intros [= <-].
  - destruct (f s x) as [s1|] eqn:Hf; [simpl|done].
    apply IH.
    + intros a y a' Hy. apply Hstep. by apply list_elem_of_further.
    + apply (Hstep s x s1); [apply list_elem_of_here | done | done].
Qed.

Lemma callbacks_method_origin (m : module) (plugin : pyobj) (body : list stmt)
    (cname : string) (bases : list expr) (cbody : list stmt)
    (acc acc' : list Callback.t) (method : stmt) :
  ClassDef cname bases cbody ∈ body →
  plugin_class_candidate cname bases = true →
  method ∈ cbody →
  Forall (callback_origin body) acc →
  callbacks_method m plugin acc method = Ok acc' →
  Forall (callback_origin body) acc'.
Proof.
  intros Hclass Hcand Hmethod Hacc.
  destruct method as [targets value|name bases' body'|name decos|]; simpl;
    try (by intros [= <-]).
  destruct (getattr m plugin name) as [func|]; [simpl|done].
  destruct (is_handler func) eqn:Hh; [|by intros [= <-]].
  destruct (__get_event_decorator_keywords decos) as [keywords|] eqn:Hkw;
    [simpl|done].
  destruct func as [|s|f|]; try (by intros [= <-]).
  intros [= <-]. apply Forall_app. split; [done|].
  constructor; [|constructor].
  split; [done|]. split; [done|].
  by exists cname, bases, cbody, decos, keywords.
Qed.

Lemma callbacks_item_origin (m : module) (body : list stmt)
    (acc acc' : list Callback.t) (item : stmt) :
  item ∈ body →
  Forall (callback_origin body) acc →
  callbacks_item m acc item = Ok acc' →
  Forall (callback_origin body) acc'.
Proof.
  intros Hitem Hacc.
  destruct item as [targets value|name bases cbody|name decos|]; simpl;
    try (by intros [= <-]).
  destruct (plugin_class_candidate name bases) eqn:Hcand; [|by intros [= <-]].
  destruct (module_getattr m name) as [plugin|]; [simpl|done].
  destruct (issubclass plugin) as [[]|]; simpl; [|by intros [= <-]|done].
  apply rfold_invariant_in; [|done].
  intros a x a' Hx Ha.
  by apply (callbacks_method_origin m plugin body name bases cbody).
Qed.

(** X6: every callback [_get_plugin_callbacks] returns comes from an
    [async def] in the body of a public top-level class with bases of the
    file; it carries the name of that method, a function the event framework
    takes for a handler, the docstring of that function as its help, and the
    privacy computed from the decorators of that method. *)
Theorem X6_callbacks_origin (E : env) (name path : string) (st st' : state)
    (callbacks : list Callback.t) :
  _get_plugin_callbacks E name path st = (Ok callbacks, st') →
  ∃ body ns,
    sources E !! path = Some (Module_ body (Ok ns))
    ∧ Forall (callback_origin body) callbacks.
Proof.
  unfold _get_plugin_callbacks, bind, load_module, lift, parse.
  destruct (sources E !! path) as [[|body [ns|e]]|]; try done.
  destruct (rfold _ body []) as [cbs|] eqn:Hfold; [|done].
  intros [= <- _]. exists body, ns. split; [done|].
  revert Hfold. apply rfold_invariant_in; [|constructor].
  intros a x a' Hx Ha. by apply callbacks_item_origin.
Qed.

Lemma X6_callbacks_origin_witness :
  _get_plugin_callbacks Ping.E "ping" "/kantek/plugins/ping.py" initial
  = (Ok (fst_ok (_get_plugin_callbacks Ping.E "ping" "/kantek/plugins/ping.py"
                   initial)),
     snd (_get_plugin_callbacks Ping.E "ping" "/kantek/plugins/ping.py" initial))
  ∧ ∃ body ns,
      sources Ping.E !! "/kantek/plugins/ping.py" = Some (Module_ body (Ok ns))
      ∧ Forall (callback_origin body)
          (fst_ok (_get_plugin_callbacks Ping.E "ping" "/kantek/plugins/ping.py"
                     initial)).
Proof.
  split; [reflexivity|].
  apply (X6_callbacks_origin Ping.E "ping" "/kantek/plugins/ping.py" initial
           (snd (_get_plugin_callbacks Ping.E "ping" "/kantek/plugins/ping.py"
                   initial))).
  reflexivity.
Defined.

(** ** Reading the decorators of a handler *)

Lemma keywords_fold_lookup (keywords : list (string * expr))
    (m : gmap string (option bool)) (key : string) :
  fold_left
    (λ (acc : gmap string (option bool)) (kw : string * expr),
       match snd kw with
       | NameConstant value => <[fst kw := value]> acc
       | _ => acc
       end)
    keywords m !! key
  = match last_constant keywords key with
    | Some c => Some c
    | None => m !! key
    end.
Proof.
  revert m. induction keywords as [|[k v] keywords IH]; intros m; simpl; [done|].
  rewrite IH. destruct (last_constant keywords key); [done|].
  destruct v; try done.
  destruct (String.eqb k key) eqn:Hk.
  - apply String.eqb_eq in Hk as ->. by rewrite lookup_insert_eq.
  - apply String.eqb_neq in Hk. by rewrite lookup_insert_ne.
Qed.

(** X7: for a method with the one decorator [@events.<attr>(<f>(...,
    k=v, ...))], the dictionary of keywords binds a key to the constant of
    the last keyword argument of that name whose value is [True], [False]
    or [None]; keyword arguments with any other value (a pattern, a name, an
    expression) are left out.  The callback is private when the last such
    [outgoing] is [True], or when there is no boolean [outgoing] and the last
    such [incoming] is [False]. *)
Theorem X7_keywords_of_marker (attr : string) (f : expr) (fargs : list expr)
    (keywords dkeywords : list (string * expr)) :
  ∃ m,
    __get_event_decorator_keywords
      [Call (Attribute (Name "events") attr) [Call f fargs keywords] dkeywords]
    = Ok m
    ∧ (∀ key, m !! key = last_constant keywords key)
    ∧ __is_private m
      = match last_constant keywords "outgoing" with
        | Some (Some outgoing) => outgoing
        | _ => match last_constant keywords "incoming" with
               | Some (Some incoming) => negb incoming
               | _ => false
               end
        end.
Proof.
  eexists. split; [simpl; reflexivity|].
  assert (Hlookup : ∀ key,
            (fold_left
               (λ (acc : gmap string (option bool)) (kw : string * expr),
                  match snd kw with
                  | NameConstant value => <[fst kw := value]> acc
                  | _ => acc
                  end)
               keywords ∅ ∪ ∅) !! key
            = last_constant keywords key).
  { intros key. rewrite (right_id_L ∅ (∪)), keywords_fold_lookup.
    destruct (last_constant keywords key); [done | apply lookup_empty]. }
  split; [exact Hlookup|].
  unfold __is_private, get. rewrite !Hlookup.
  destruct (last_constant keywords "outgoing") as [[o|]|],
           (last_constant keywords "incoming") as [[i|]|]; reflexivity.
Qed.



(** ** Metadata: which declaration counts *)

Lemma get_plugin_info_run E (name path : string) (st : state)
    (body : list stmt) (ns : gmap string pyobj) :
  sources E !! path = Some (Module_ body (Ok ns)) →
  _get_plugin_info E name path st
  = (rfold (info_item {| mod_load := loads st; mod_ns := ns |}) body
       {| info_version := ""; info_name := VStr ""; info_help := VStr "" |},
     {| active_plugins := active_plugins st;
        client_calls := client_calls st;
        loads := S (loads st) |}).
Proof.
  intros Hsrc. unfold _get_plugin_info, bind, load_module, lift, parse.
  by rewrite Hsrc.
Qed.

(** X9: the version [_get_plugin_info] returns is the string of the last
    top-level assignment to [__version__], wherever the classes of the file
    stand. *)
Theorem X9_last_version_wins (E : env) (name path : string) (st st' : state)
    (info : plugin_info) (ns : gmap string pyobj) (pre post : list stmt)
    (targets : list expr) (s : string) :
  sources E !! path
  = Some (Module_ (pre ++ Assign (Name "__version__" :: targets) (Str s) :: post)
                  (Ok ns)) →
  existsb assigns_version post = false →
  _get_plugin_info E name path st = (Ok info, st') →
  info_version info = s.
Proof.
  intros Hsrc Hpost. rewrite (get_plugin_info_run E name path st _ ns Hsrc).
  intros [= Hfold _]. rewrite rfold_app in Hfold.
  destruct (rfold _ pre _) as [info1|]; [|done].
  cbn [rbind rfold info_item] in Hfold. simpl in Hfold.
  apply existsb_false_Forall in Hpost.
  by rewrite (rfold_info_version _ post _ info Hpost Hfold).
Qed.

Lemma X9_last_version_wins_witness :
  sources Versioned.E !! "/kantek/plugins/v.py"
  = Some (Module_ Versioned.body (Ok Bare.namespace))
  ∧ existsb assigns_version Bare.body = false
  ∧ ∃ info st',
      _get_plugin_info Versioned.E "v" "/kantek/plugins/v.py" initial
      = (Ok info, st')
      ∧ info_version info = "0.2.0".
Proof.
  split; [reflexivity|]. split; [reflexivity|].
  exists {| info_version := "0.2.0"; info_name := VNone; info_help := VNone |},
         {| active_plugins := []; client_calls := []; loads := 1 |}.
  split; [reflexivity|].
  apply (X9_last_version_wins Versioned.E "v" "/kantek/plugins/v.py" initial
           {| active_plugins := []; client_calls := []; loads := 1 |}
           {| info_version := "0.2.0"; info_name := VNone; info_help := VNone |}
           Bare.namespace [Assign [Name "__version__"] (Str "0.1.0")]
           Bare.body [] "0.2.0").
  - reflexivity.
  - reflexivity.
  - reflexivity.
Defined.

(** X10: the name and the help [_get_plugin_info] returns are what
    attribute lookup finds on the last plugin class of the file: the value of
    the first class in its resolution order that declares the attribute, so
    that a declaration of the class itself wins over an inherited one and
    over the default of [KantekPlugin]. *)
Theorem X10_last_plugin_class_wins (E : env) (name path : string)
    (st st' : state) (info : plugin_info) (ns : gmap string pyobj)
    (pre post cbody : list stmt) (cname : string) (bases : list expr)
    (mro : list pyclass) :
  sources E !! path
  = Some (Module_ (pre ++ ClassDef cname bases cbody :: post) (Ok ns)) →
  plugin_class_candidate cname bases = true →
  ns !! cname = Some (OClass mro) →
  existsb is_KantekPlugin mro = true →
  existsb (is_plugin_class ns) post = false →
  _get_plugin_info E name path st = (Ok info, st') →
  ∃ vname vhelp,
    mro_lookup mro "name" = Some vname
    ∧ mro_lookup mro "help" = Some vhelp
    ∧ info_name info = pyval_map (instantiate (loads st)) vname
    ∧ info_help info = pyval_map (instantiate (loads st)) vhelp.
Proof.
  intros Hsrc Hcand Hns Hsub Hpost.
  rewrite (get_plugin_info_run E name path st _ ns Hsrc).
  intros [= Hfold _]. rewrite rfold_app in Hfold.
  destruct (rfold _ pre _) as [info1|]; [|done].
  cbn [rbind rfold info_item] in Hfold.
  rewrite Hcand in Hfold. unfold module_getattr in Hfold.
  cbn [mod_ns] in Hfold. rewrite Hns in Hfold.
  cbn [rbind issubclass getattr] in Hfold. rewrite Hsub in Hfold.
  destruct (mro_lookup mro "name") as [vname|]; [|done].
  destruct (mro_lookup mro "help") as [vhelp|]; [|done].
  cbn [rbind mod_load] in Hfold.
  destruct (rfold_info_other {| mod_load := loads st; mod_ns := ns |}
              post _ info Hpost Hfold) as [-> ->].
  by exists vname, vhelp.
Qed.

Lemma X10_last_plugin_class_wins_witness :
  sources Ping.E !! "/kantek/plugins/ping.py"
  = Some (Module_ (firstn 4 Ping.body ++ hd OtherStmt (skipn 4 Ping.body) :: [])
                  (Ok Ping.namespace))
  ∧ plugin_class_candidate "Ping" [Name "KantekPlugin"] = true
  ∧ Ping.namespace !! "Ping" = Some (OClass [Ping.Ping; KantekPlugin])
  ∧ existsb is_KantekPlugin [Ping.Ping; KantekPlugin] = true
  ∧ existsb (is_plugin_class Ping.namespace) [] = false
  ∧ ∃ info st' vname vhelp,
      _get_plugin_info Ping.E "ping" "/kantek/plugins/ping.py" initial
      = (Ok info, st')
      ∧ mro_lookup [Ping.Ping; KantekPlugin] "name" = Some vname
      ∧ mro_lookup [Ping.Ping; KantekPlugin] "help" = Some vhelp
      ∧ info_name info = pyval_map (instantiate 0) vname
      ∧ info_help info = pyval_map (instantiate 0) vhelp
      ∧ info_name info = VStr "Ping".
Proof.
  do 5 (split; [reflexivity|]).
  exists {| info_version := ""; info_name := VStr "Ping";
            info_help := VStr "Some help message" |},
         {| active_plugins := []; client_calls := []; loads := 1 |}.
  destruct (X10_last_plugin_class_wins Ping.E "ping" "/kantek/plugins/ping.py"
              initial
              {| active_plugins := []; client_calls := []; loads := 1 |}
              {| info_version := ""; info_name := VStr "Ping";
                 info_help := VStr "Some help message" |}
              Ping.namespace
              [OtherStmt; OtherStmt; OtherStmt; OtherStmt] []
              [ Assign [Name "name"] (Str "Ping");
                Assign [Name "help"] (Str "Some help message");
                AsyncFunctionDef "ping"
                  [ Call (Attribute (Name "events") "register")
                         [ Call (Name "NewMessage") []
                                [ ("outgoing", NameConstant (Some true));
                                  ("pattern", OtherExpr) ] ]
                         [] ] ]
              "Ping" [Name "KantekPlugin"] [Ping.Ping; KantekPlugin]
              eq_refl eq_refl eq_refl eq_refl eq_refl eq_refl)
    as (vname & vhelp & Hn & Hh & Hname & Hhelp).
  exists vname, vhelp. split; [reflexivity|].
  split; [exact Hn|]. split; [exact Hh|]. split; [exact Hname|].
  split; [exact Hhelp|]. reflexivity.
Defined.



(** ** Files without a plugin class *)

Lemma callbacks_item_skip (m : module) (acc : list Callback.t) (item : stmt) :
  info_safe (mod_ns m) item = true →
  is_plugin_class (mod_ns m) item = false →
  callbacks_item m acc item = Ok acc.
Proof.
  destruct item as [targets value|name bases cbody|name decos|]; simpl; try done.
  destruct (plugin_class_candidate name bases); simpl; [|done].
  unfold module_getattr.
  destruct (mod_ns m !! name) as [[mro|]|]; try done. simpl.
  by intros _ ->.
Qed.

Lemma rfold_callbacks_skip (m : module) (items : list stmt)
    (acc : list Callback.t) :
  forallb (info_safe (mod_ns m)) items = true →
  existsb (is_plugin_class (mod_ns m)) items = false →
  rfold (callbacks_item m) items acc = Ok acc.
Proof.
  induction items as [|item items IH]; simpl; [done|].
  intros [Hsafe Hsafes]%andb_true_iff [Hitem Hitems]%orb_false_iff.
  rewrite (callbacks_item_skip m acc item Hsafe Hitem). simpl. by apply IH.
Qed.

(** X12: a file that loads and holds no plugin class (no public class
    with bases under [KantekPlugin]) is registered all the same, when its
    assignments and classes are read without error: as a plugin with the
    module name of the file, the empty string for its help and no callbacks,
    without a call on the client. *)
Theorem X12_file_without_plugin_class (E : env) (name path : string)
    (st : state) (body : list stmt) (ns : gmap string pyobj) :
  sources E !! path = Some (Module_ body (Ok ns)) →
  forallb (info_safe ns) body = true →
  existsb (is_plugin_class ns) body = false →
  ∃ version st',
    register_file E (name, path) st = (Ok tt, st')
    ∧ active_plugins st'
      = active_plugins st
        ++ [Plugin.mk name (VStr "") [] path (plugin_path E) version]
    ∧ client_calls st' = client_calls st.
Proof.
  intros Hsrc Hsafe Hnone.
  set (m := {| mod_load := loads st; mod_ns := ns |}).
  set (info0 := {| info_version := ""; info_name := VStr ""; info_help := VStr "" |}).
  destruct (rfold_info_safe m body info0 Hsafe) as [info Hinfo].
  destruct (rfold_info_other m body info0 info Hnone Hinfo) as [_ Hhelp].
  exists (info_version info). eexists. split.
  - apply register_file_Ok. exists info, []. split; [|split; [|split]].
    + unfold info_at. by rewrite Hsrc.
    + unfold callbacks_at. rewrite Hsrc.
      by apply (rfold_callbacks_skip
                  {| mod_load := S (loads st); mod_ns := ns |}).
    + by left.
    + reflexivity.
  - simpl. rewrite Hhelp. simpl. by rewrite app_nil_r.
Qed.

Lemma X12_file_without_plugin_class_witness :
  sources Happy.E !! "/kantek/plugins/happy.py" = Some (Module_ [] (Ok ∅))
  ∧ forallb (info_safe ∅) [] = true
  ∧ existsb (is_plugin_class ∅) [] = false
  ∧ ∃ version st',
      register_file Happy.E ("happy", "/kantek/plugins/happy.py") initial
      = (Ok tt, st')
      ∧ active_plugins st'
        = active_plugins initial
          ++ [Plugin.mk "happy" (VStr "") [] "/kantek/plugins/happy.py"
                        (plugin_path Happy.E) version]
      ∧ client_calls st' = client_calls initial.
Proof.
  do 3 (split; [reflexivity|]).
  apply (X12_file_without_plugin_class Happy.E "happy"
           "/kantek/plugins/happy.py" initial [] ∅).
  - reflexivity.
  - reflexivity.
  - reflexivity.
Defined.

(** ** Unregistering, in full *)

Lemma list_remove_split (p : Plugin.t) (l r : list Plugin.t) :
  list_remove p l = Some r ↔
  ∃ l1 l2, l = l1 ++ p :: l2 ∧ (p ∉ l1) ∧ r = l1 ++ l2.
Proof.
  revert r. induction l as [|q l IH]; intros r; simpl.
  - split; [done|]. intros (l1 & l2 & Hl & _). by destruct l1.
  - case_decide as Hq.
    + subst q. split.
      * intros [= <-]. exists [], l. split; [done|]. split; [apply not_elem_of_nil|done].
      * intros (l1 & l2 & Hl & Hnot & ->). destruct l1 as [|q l1].
        -- by injection Hl as <-.
        -- injection Hl as <- _. exfalso. apply Hnot, list_elem_of_here.
    + destruct (list_remove p l) as [r'|] eqn:Hr.
      * destruct (proj1 (IH r') eq_refl) as (l1 & l2 & -> & Hnot & ->). split.
        -- intros [= <-]. exists (q :: l1), l2. split; [done|].
           split; [|done]. apply not_elem_of_cons. by split.
        -- intros (k1 & k2 & Hl & Hk & ->). destruct k1 as [|q' k1].
           ++ by injection Hl as ->.
           ++ injection Hl as <- Hl. f_equal.
              assert (Some (l1 ++ l2) = Some (k1 ++ k2)) as [= ->]; [|done].
              apply IH. exists k1, k2. split; [done|]. split; [|done].
              intros ?. apply Hk. by apply list_elem_of_further.
      * split; [done|]. intros (k1 & k2 & Hl & Hk & ->). destruct k1 as [|q' k1].
        -- by injection Hl as ->.
        -- injection Hl as <- Hl. exfalso.
           assert (None = Some (k1 ++ k2)) as [=].
           apply IH. exists k1, k2. split; [done|]. split; [|done].
           intros ?. apply Hk. by apply list_elem_of_further.
Qed.

Lemma unregister_plugin_active (p : Plugin.t) (st : state) :
  p ∈ active_plugins st →
  ∃ l1 l2,
    active_plugins st = l1 ++ p :: l2
    ∧ (p ∉ l1)
    ∧ unregister_plugin p st
      = (Ok tt,
         {| active_plugins := l1 ++ l2;
            client_calls := client_calls st ++ removals p;
            loads := loads st |}).
Proof.
  intros Hp. rewrite unregister_plugin_eq. cbn zeta.
  destruct (list_remove p (active_plugins st)) as [r|] eqn:Hr.
  - apply list_remove_split in Hr as (l1 & l2 & Hl & Hnot & ->).
    by exists l1, l2.
  - by apply list_remove_None in Hr.
Qed.

(** X13: unregistering a plugin of the active list returns; the client
    has been told to drop every callback of the plugin, in order, and the
    active list has lost the first entry equal to the plugin and nothing
    else. *)
Theorem X13_unregister_active_plugin (p : Plugin.t) (st : state) :
  p ∈ active_plugins st →
  ∃ l1 l2,
    active_plugins st = l1 ++ p :: l2
    ∧ (p ∉ l1)
    ∧ unregister_plugin p st
      = (Ok tt,
         {| active_plugins := l1 ++ l2;
            client_calls := client_calls st ++ removals p;
            loads := loads st |}).
Proof. apply unregister_plugin_active. Qed.

Lemma X13_unregister_active_plugin_witness :
  let st := snd (register_all Ping.E initial) in
  let p := hd Happy.plugin (active_plugins st) in
  (p ∈ active_plugins st)
  ∧ ∃ l1 l2,
      active_plugins st = l1 ++ p :: l2
      ∧ (p ∉ l1)
      ∧ unregister_plugin p st
        = (Ok tt,
           {| active_plugins := l1 ++ l2;
              client_calls := client_calls st ++ removals p;
              loads := loads st |}).
Proof.
  intros st p.
  assert (Hp : p ∈ active_plugins st).
  { change (active_plugins st) with [p]. apply list_elem_of_here. }
  split; [exact Hp|].
  apply (X13_unregister_active_plugin p st). exact Hp.
Defined.

Lemma unregister_all_loop_past_end E (fuel : nat) (builtins : bool) (i : nat)
    (st : state) :
  length (active_plugins st) ≤ i →
  unregister_all_loop E fuel builtins i st = Some (Ok tt, st).
Proof.
  intros Hlen. destruct fuel; simpl;
    by rewrite (lookup_ge_None_2 (active_plugins st) i).
Qed.

Lemma unregister_all_loop_true E (fuel i : nat) (st : state) :
  i ≤ length (active_plugins st) →
  length (active_plugins st) ≤ fuel + i →
  ∃ st' removed,
    unregister_all_loop E fuel true i st = Some (Ok tt, st')
    ∧ length (active_plugins st')
      = i + Nat.div2 (length (active_plugins st) - i)
    ∧ active_plugins st' `sublist_of` active_plugins st
    ∧ client_calls st' = client_calls st ++ concat (map removals removed)
    ∧ Forall (λ p, p ∈ active_plugins st) removed
    ∧ loads st' = loads st.
Proof.
  revert i st. induction fuel as [|fuel IH]; intros i st Hi Hfuel.
  - exists st, []. rewrite unregister_all_loop_past_end by lia.
    replace (length (active_plugins st) - i) with 0 by lia. simpl.
    rewrite app_nil_r. repeat split; first [done | lia | constructor].
  - destruct (active_plugins st !! i) as [plugin|] eqn:Hlook.
    2:{ apply lookup_ge_None_1 in Hlook.
        exists st, []. rewrite unregister_all_loop_past_end by lia.
        replace (length (active_plugins st) - i) with 0 by lia. simpl.
        rewrite app_nil_r. repeat split; first [done | lia | constructor]. }
    pose proof (lookup_lt_Some _ _ _ Hlook) as Hlt.
    destruct (unregister_plugin_active plugin st
                (list_elem_of_lookup_2 _ _ _ Hlook))
      as (l1 & l2 & Hact & _ & Hrun).
    remember {| active_plugins := l1 ++ l2;
                client_calls := client_calls st ++ removals plugin;
                loads := loads st |} as st1 eqn:Hst1.
    assert (Hact1 : active_plugins st1 = l1 ++ l2) by (by subst st1).
    assert (Hcalls1 : client_calls st1 = client_calls st ++ removals plugin)
      by (by subst st1).
    assert (Hloads1 : loads st1 = loads st) by (by subst st1).
    clear Hst1.
    assert (Hlen1 : length (active_plugins st) = S (length (active_plugins st1))).
    { rewrite Hact, Hact1, !length_app. simpl. lia. }
    assert (Hsub : active_plugins st1 `sublist_of` active_plugins st).
    { rewrite Hact, Hact1. apply sublist_app; [done|]. by apply sublist_cons. }
    assert (Hloop : unregister_all_loop E (S fuel) true i st
                    = unregister_all_loop E fuel true (S i) st1).
    { simpl. by rewrite Hlook, Hrun. }
    rewrite Hloop.
    destruct (decide (S i ≤ length (active_plugins st1))) as [Hle|Hgt].
    + destruct (IH (S i) st1 Hle) as (st' & removed & Hrun' & Hlen' & Hsub' & Hcalls' & Hrem' & Hloads');
        [lia|].
      exists st', (plugin :: removed). split; [done|]. split; [|split; [|split; [|split]]].
      * rewrite Hlen', Hlen1.
        replace (S (length (active_plugins st1)) - i)
          with (S (S (length (active_plugins st1) - S i))) by lia.
        simpl. lia.
      * by etrans.
      * rewrite Hcalls', Hcalls1. simpl. by rewrite <- app_assoc.
      * constructor; [by apply (list_elem_of_lookup_2 _ i)|].
        eapply Forall_impl; [exact Hrem'|]. intros q Hq. simpl in Hq.
        by apply (elem_of_sublist (active_plugins st1)).
      * by rewrite Hloads'.
    + exists st1, [plugin]. rewrite unregister_all_loop_past_end by lia.
      split; [done|]. split; [|split; [|split; [|split]]].
      * replace (length (active_plugins st) - i) with 1 by lia. simpl. lia.
      * done.
      * simpl. by rewrite app_nil_r.
      * constructor; [by apply (list_elem_of_lookup_2 _ i) | constructor].
      * done.
Qed.

(** X14: [unregister_all(True)] always returns.  It removes every other
    plugin: of [n] active plugins, half of them (rounded down) are left, in
    their order; the client is told to drop the callbacks of plugins that
    were active and nothing else.  With at most one active plugin the
    registry ends up empty. *)
Theorem X14_unregister_all_true (E : env) (st : state) :
  ∃ st' removed,
    unregister_all E true st = Some (Ok tt, st')
    ∧ length (active_plugins st') = Nat.div2 (length (active_plugins st))
    ∧ active_plugins st' `sublist_of` active_plugins st
    ∧ client_calls st' = client_calls st ++ concat (map removals removed)
    ∧ Forall (λ p, p ∈ active_plugins st) removed
    ∧ loads st' = loads st.
Proof.
  destruct (unregister_all_loop_true E (length (active_plugins st)) 0 st)
    as (st' & removed & Hrun & Hlen & H); [lia..|].
  exists st', removed. split; [done|]. split; [|done].
  by rewrite Hlen, Nat.sub_0_r.
Qed.


(** *** Leaving the builtins alone *)

Lemma path_Raise (cwd : string) (p : Plugin.t) (e : exn) :
  Plugin.path cwd p = Raise e → e = ValueError ∧ Plugin.full_path p = "".
Proof.
  unfold Plugin.path. destruct (decide (Plugin.full_path p = "")) as [Hp|Hp].
  - rewrite Hp. simpl. by intros [= <-].
  - destruct (relpath_Ok cwd _ (Plugin.plugin_path p) Hp) as [rel ->]. done.
Qed.

Lemma unregister_all_loop_false E (fuel i : nat) (st st' : state)
    (r : Result unit) :
  unregister_all_loop E fuel false i st = Some (r, st') →
  filter (λ p, is_builtin (cwd E) p = true) (active_plugins st')
  = filter (λ p, is_builtin (cwd E) p = true) (active_plugins st)
  ∧ active_plugins st' `sublist_of` active_plugins st
  ∧ (r = Ok tt
     ∨ r = Raise ValueError
       ∧ ∃ p, p ∈ active_plugins st ∧ Plugin.full_path p = "").
Proof.
  revert i st. induction fuel as [|fuel IH]; intros i st; simpl.
  - destruct (active_plugins st !! i); [done|]. intros [= <- <-]. auto.
  - destruct (active_plugins st !! i) as [plugin|] eqn:Hlook.
    2:{ intros [= <- <-]. auto. }
    pose proof (list_elem_of_lookup_2 _ _ _ Hlook) as Hin.
    unfold bind, lift.
    destruct (Plugin.path (cwd E) plugin) as [path|e] eqn:Hpath.
    2:{ intros [= <- <-]. apply path_Raise in Hpath as [-> Hempty].
        split; [done|]. split; [done|]. right. split; [done|]. by exists plugin. }
    destruct (negb (PyStr.startswith path "builtins/")) eqn:Hb.
    + destruct (unregister_plugin_active plugin st Hin)
        as (l1 & l2 & Hact & _ & ->).
      intros Hrun. apply IH in Hrun as (Hfilter & Hsub & Hr).
      cbn [active_plugins] in Hfilter, Hsub, Hr.
      assert (Hnot : is_builtin (cwd E) plugin ≠ true).
      { unfold is_builtin. rewrite Hpath.
        apply negb_true_iff in Hb. by rewrite Hb. }
      split; [|split].
      * rewrite Hfilter, Hact, !filter_app. f_equal.
        by rewrite filter_cons_False.
      * etrans; [exact Hsub|]. rewrite Hact.
        apply sublist_app; [done|]. by apply sublist_cons.
      * destruct Hr as [->|[-> (q & Hq & Hempty)]]; [by left|].
        right. split; [done|]. exists q. split; [|done].
        rewrite Hact. apply elem_of_app in Hq as [Hq|Hq].
        -- apply elem_of_app. by left.
        -- apply elem_of_app. right. by apply list_elem_of_further.
    + unfold ret. apply IH.
Qed.

(** X15: [unregister_all()] without the builtins always ends, and leaves
    every plugin whose relative path starts with [builtins/] in the active
    list, in its place among them; what is left is a part of the list as it
    was, in order.  The call returns unless some active plugin has the empty
    string for its full path, the one case in which it raises, with
    [ValueError]. *)
Theorem X15_unregister_all_keeps_builtins (E : env) (st : state) :
  ∃ r st',
    unregister_all E false st = Some (r, st')
    ∧ filter (λ p, is_builtin (cwd E) p = true) (active_plugins st')
      = filter (λ p, is_builtin (cwd E) p = true) (active_plugins st)
    ∧ active_plugins st' `sublist_of` active_plugins st
    ∧ (r = Ok tt
       ∨ r = Raise ValueError
         ∧ ∃ p, p ∈ active_plugins st ∧ Plugin.full_path p = "").
Proof.
  destruct (unregister_all_total E false st) as [[r st'] Hrun].
  exists r, st'. split; [done|].
  by apply (unregister_all_loop_false E (length (active_plugins st)) 0 st st' r).
Qed.

(** ** The registry in use *)

Lemma registry_inv_reachable E (st : state) :
  fresh_handlers E → reachable_on_active E st → registry_inv st.
Proof.
  intros Hfresh Hreach.
  induction Hreach as [|st _ IH|st p _ IH Hp|st builtins r st' _ IH Hrun].
  - apply registry_inv_initial.
  - by apply registry_inv_register_all.
  - by apply registry_inv_unregister_plugin.
  - by apply (registry_inv_unregister_all_loop E
                (length (active_plugins st)) builtins 0 st st' r).
Qed.

Lemma pairwise_disjoint_lookup (l : list Plugin.t) (i j : nat)
    (p q : Plugin.t) :
  pairwise_disjoint l → i < j →
  l !! i = Some p → l !! j = Some q → disjoint_handles p q.
Proof.
  revert i j. induction l as [|x l IH]; intros i j Hl Hij Hi Hj; [done|].
  destruct Hl as [Hx Hl]. destruct j as [|j]; [lia|].
  destruct i as [|i]; simpl in *.
  - injection Hi as ->.
    apply (proj1 (Forall_forall _ _) Hx). by apply (list_elem_of_lookup_2 _ j).
  - apply (IH i j); [done|lia|done|done].
Qed.

(** X16: take plugin files whose handlers are functions that the files
    themselves define.  In every state reached from the empty registry by
    [register_all], [unregister_all] and [unregister_plugin] on active
    plugins, two entries of the active list never hold the same callable,
    and every callable of an active plugin was created by an execution of a
    plugin file that is over. *)
Theorem X16_active_plugins_share_no_callable (E : env) (st : state) :
  fresh_handlers E →
  reachable_on_active E st →
  (∀ i j p q, i ≠ j →
     active_plugins st !! i = Some p → active_plugins st !! j = Some q →
     disjoint_handles p q)
  ∧ handles_created st.
Proof.
  intros Hfresh Hreach.
  destruct (registry_inv_reachable E st Hfresh Hreach) as (_ & Hcreated & Hdisj).
  split; [|done].
  intros i j p q Hij Hi Hj.
  destruct (decide (i < j)) as [Hlt|Hge].
  - by apply (pairwise_disjoint_lookup (active_plugins st) i j).
  - apply disjoint_handles_sym.
    apply (pairwise_disjoint_lookup (active_plugins st) j i); [done|lia|done|done].
Qed.

Lemma X16_active_plugins_share_no_callable_witness :
  let st := snd (register_all Ping.E (snd (register_all Ping.E initial))) in
  fresh_handlers Ping.E
  ∧ reachable_on_active Ping.E st
  ∧ length (active_plugins st) = 2
  ∧ (∀ i j p q, i ≠ j →
       active_plugins st !! i = Some p → active_plugins st !! j = Some q →
       disjoint_handles p q)
  ∧ handles_created st.
Proof.
  intros st.
  assert (Hreach : reachable_on_active Ping.E st).
  { apply reach_register_all, reach_register_all, reach_initial. }
  split; [exact fresh_handlers_Ping|]. split; [exact Hreach|].
  split; [reflexivity|].
  apply (X16_active_plugins_share_no_callable Ping.E st).
  - exact fresh_handlers_Ping.
  - exact Hreach.
Defined.

(** *** Registering and unregistering again *)

Lemma created_since_le (n n' : nat) (p : Plugin.t) :
  n ≤ n' → created_since n' p → created_since n p.
Proof.
  intros Hle Hp. unfold created_since. eapply Forall_impl; [exact Hp|].
  intros h (k & Hk & Hle'). exists k. split; [done|lia].
Qed.

Lemma for_each_register_created E (entries : list (string * string))
    (st st1 : state) :
  fresh_handlers E →
  for_each entries (register_file E) st = (Ok tt, st1) →
  ∃ new, st1 = fold_left registered new st
         ∧ Forall (created_since (loads st)) new.
Proof.
  intros Hfresh. revert st.
  induction entries as [|[name path] entries IH]; intros st.
  - simpl. unfold ret. intros [= <-]. by exists [].
  - cbn [for_each]. unfold bind at 1.
    destruct (register_file E (name, path) st) as [[[]|e] st_mid] eqn:Hfile;
      [|done].
    apply register_file_Ok in Hfile as (info & cbs & _ & Hcbs & _ & ->).
    intros (new & -> & Hnew)%IH.
    eexists (_ :: new). split; [reflexivity|]. constructor.
    + unfold created_since, handles. cbn [Plugin.callbacks].
      apply Forall_fmap.
      eapply Forall_impl; [exact (callbacks_at_created E _ path cbs Hfresh Hcbs)|].
      intros cb Hcb. exists (S (loads st)). split; [done|lia].
    + eapply Forall_impl; [exact Hnew|]. intros p.
      apply created_since_le. cbn [registered loads]. lia.
Qed.

Lemma for_each_unregister (ps rest : list Plugin.t) (st : state) :
  active_plugins st ≡ₚ ps ++ rest →
  ∃ st',
    for_each ps unregister_plugin st = (Ok tt, st')
    ∧ active_plugins st' ≡ₚ rest
    ∧ client_calls st' = client_calls st ++ concat (map removals ps).
Proof.
  revert st. induction ps as [|p ps IH]; intros st Hperm.
  - exists st. simpl. unfold ret. by rewrite app_nil_r.
  - assert (Hp : p ∈ active_plugins st).
    { rewrite Hperm. apply list_elem_of_here. }
    destruct (unregister_plugin_active p st Hp) as (l1 & l2 & Hact & _ & Hrun).
    cbn [for_each]. unfold bind. rewrite Hrun.
    destruct (IH {| active_plugins := l1 ++ l2;
                    client_calls := client_calls st ++ removals p;
                    loads := loads st |}) as (st' & Hrun' & Hperm' & Hcalls').
    { cbn [active_plugins]. apply (Permutation_cons_inv (a:=p)).
      rewrite Permutation_middle, <- Hact. exact Hperm. }
    exists st'. split; [done|]. split; [done|].
    rewrite Hcalls'. simpl. by rewrite <- app_assoc.
Qed.

Lemma table_after_removals_filter (hs table : list funcobj) :
  fold_left client_step (map RemoveEventHandler hs) table
  = filter (λ h, h ∉ hs) table.
Proof.
  revert table. induction hs as [|h hs IH]; intros table; simpl.
  - induction table as [|x table IHt]; [done|].
    rewrite filter_cons_True by apply not_elem_of_nil. by rewrite <- IHt.
  - rewrite IH. rewrite list_filter_filter. apply list_filter_iff.
    intros x. rewrite not_elem_of_cons. tauto.
Qed.

Lemma filter_all {A} (P : A → Prop) `{∀ x, Decision (P x)} (l : list A) :
  Forall P l → filter P l = l.
Proof.
  induction 1 as [|x l Hx _ IH]; [done|].
  by rewrite filter_cons_True, IH.
Qed.

Lemma filter_none {A} (P : A → Prop) `{∀ x, Decision (P x)} (l : list A) :
  Forall (λ x, ¬ P x) l → filter P l = [].
Proof.
  induction 1 as [|x l Hx _ IH]; [done|].
  by rewrite filter_cons_False.
Qed.

Lemma removals_concat (new : list Plugin.t) :
  concat (map removals new)
  = map RemoveEventHandler (concat (map handles new)).
Proof.
  induction new as [|p new IH]; [done|].
  simpl. by rewrite IH, map_app.
Qed.

Lemma additions_concat (new : list Plugin.t) :
  concat (map additions new)
  = map AddEventHandler (concat (map handles new)).
Proof.
  induction new as [|p new IH]; [done|].
  simpl. by rewrite IH, map_app.
Qed.

(** X17: take plugin files whose handlers are functions that the files
    themselves define, and a state reached by using the registry on its own
    plugins.  After a pass of [register_all] that returns, unregistering the
    plugins the pass appended, one by one, returns every time, gives the
    client back the handler table it had before the pass, and leaves the
    plugins that were active before, up to their order. *)
Theorem X17_register_then_unregister (E : env) (st st1 : state)
    (plugins : list Plugin.t) :
  fresh_handlers E →
  reachable_on_active E st →
  register_all E st = (Ok plugins, st1) →
  ∃ st2,
    for_each (drop (length (active_plugins st)) plugins) unregister_plugin st1
    = (Ok tt, st2)
    ∧ active_plugins st2 ≡ₚ active_plugins st
    ∧ handler_table (client_calls st2) = handler_table (client_calls st).
Proof.
  intros Hfresh Hreach [Hpass ->]%register_all_Ok.
  destruct (registry_inv_reachable E st Hfresh Hreach) as (Horph & Hcreated & _).
  destruct (for_each_register_created E _ st st1 Hfresh Hpass)
    as (new & -> & Hnew).
  rewrite registered_active, drop_app_length.
  destruct (for_each_unregister new (active_plugins st)
              (fold_left registered new st)) as (st2 & Hrun & Hperm & Hcalls).
  { rewrite registered_active. apply Permutation_app_comm. }
  exists st2. split; [done|]. split; [done|].
  rewrite Hcalls, registered_calls, removals_concat, additions_concat.
  rewrite !handler_table_app, table_after_additions, table_after_removals_filter.
  rewrite filter_app.
  rewrite (filter_none _ (concat (map handles new))).
  2:{ apply Forall_forall. intros h Hh Hnot. by apply Hnot. }
  rewrite app_nil_r. apply filter_all.
  apply Forall_forall. intros h Hh Hin.
  apply Horph in Hh as (p & Hp & Hhp).
  destruct (Hcreated p h Hp Hhp) as (n & Hn & Hlt).
  apply list_elem_of_In, in_concat in Hin as (hs & Hq & Hhs).
  apply in_map_iff in Hq as (q & <- & Hq).
  apply list_elem_of_In in Hq, Hhs.
  pose proof (proj1 (Forall_forall _ _) Hnew q Hq) as Hsince.
  destruct (proj1 (Forall_forall _ _) Hsince h Hhs) as (k & Hk & Hle).
  rewrite Hn in Hk. injection Hk as <-. lia.
Qed.

Lemma X17_register_then_unregister_witness :
  let st := snd (register_all Ping.E initial) in
  let st1 := snd (register_all Ping.E st) in
  fresh_handlers Ping.E
  ∧ reachable_on_active Ping.E st
  ∧ register_all Ping.E st = (Ok (active_plugins st1), st1)
  ∧ ∃ st2,
      for_each (drop (length (active_plugins st)) (active_plugins st1))
        unregister_plugin st1
      = (Ok tt, st2)
      ∧ active_plugins st2 ≡ₚ active_plugins st
      ∧ handler_table (client_calls st2) = handler_table (client_calls st).
Proof.
  intros st st1.
  assert (Hreach : reachable_on_active Ping.E st).
  { apply reach_register_all, reach_initial. }
  split; [exact fresh_handlers_Ping|]. split; [exact Hreach|].
  split; [reflexivity|].
  apply (X17_register_then_unregister Ping.E st st1 (active_plugins st1)).
  - exact fresh_handlers_Ping.
  - exact Hreach.
  - reflexivity.
Defined.

(** ** Relative paths under the plugin root *)

Lemma split_nonempty (s : string) : PyStr.split "/" s ≠ [].
Proof.
  induction s as [|c s IH]; simpl; [done|].
  destruct (Ascii.eqb c "/"); [done|]. by destruct (PyStr.split "/" s).
Qed.

Lemma split_no_slash (s : string) :
  no_slash s = true → PyStr.split "/" s = [s].
Proof.
  unfold no_slash. induction s as [|c s IH]; simpl; [done|].
  intros [Hc Hs]%andb_true_iff. apply negb_true_iff in Hc. rewrite Hc.
  by rewrite IH.
Qed.

Lemma split_app_sep (s t : string) :
  PyStr.split "/" (s +:+ String "/" t) = PyStr.split "/" s ++ PyStr.split "/" t.
Proof.
  induction s as [|c s IH].
  - reflexivity.
  - rewrite append_cons. simpl. destruct (Ascii.eqb c "/").
    + by rewrite IH.
    + rewrite IH. pose proof (split_nonempty s).
      by destruct (PyStr.split "/" s).
Qed.

Lemma split_slash_free (s : string) :
  Forall (λ w, no_slash w = true) (PyStr.split "/" s).
Proof.
  induction s as [|c s IH]; simpl.
  - by repeat constructor.
  - destruct (Ascii.eqb c "/") eqn:Hc.
    + by constructor.
    + pose proof (split_nonempty s).
      destruct (PyStr.split "/" s) as [|w ws]; [done|].
      apply Forall_cons in IH as [Hw Hws]. constructor; [|done].
      unfold no_slash in *. simpl. by rewrite Hc.
Qed.

Lemma clean_name_inv (s : string) :
  clean_name s = true →
  s ≠ "" ∧ String.eqb s "" = false ∧ String.eqb s "." = false
  ∧ String.eqb s ".." = false ∧ no_slash s = true.
Proof.
  unfold clean_name. intros Hs.
  apply andb_true_iff in Hs as [Hs H4]. apply andb_true_iff in Hs as [Hs H3].
  apply andb_true_iff in Hs as [H1 H2].
  apply negb_true_iff in H1, H2, H3.
  repeat split; try done. by apply String.eqb_neq.
Qed.

Lemma split_join (comps : list string) :
  comps ≠ [] →
  Forall (λ w, clean_name w = true) comps →
  PyStr.split "/" (PyStr.join "/" comps) = comps.
Proof.
  induction comps as [|w ws IH]; [done|]. intros _ [Hw Hws]%Forall_cons.
  apply clean_name_inv in Hw as (_ & _ & _ & _ & Hw).
  destruct ws as [|w' ws].
  - by apply split_no_slash.
  - change (PyStr.join "/" (w :: w' :: ws))
      with (w +:+ String "/" (PyStr.join "/" (w' :: ws))).
    rewrite split_app_sep, split_no_slash by done.
    by rewrite IH.
Qed.

Lemma nonempty_comps_join (comps : list string) :
  Forall (λ w, clean_name w = true) comps →
  OsPath.nonempty_comps (PyStr.join "/" comps) = comps.
Proof.
  intros Hcomps. unfold OsPath.nonempty_comps.
  destruct comps as [|w ws]; [done|].
  rewrite split_join by done. apply filter_all.
  eapply Forall_impl; [exact Hcomps|].
  by intros x (Hx & _)%clean_name_inv.
Qed.

Lemma normcomps_filter (rooted : bool) (comps acc : list string) :
  OsPath.normcomps rooted comps acc
  = OsPath.normcomps rooted (filter (λ x, x ≠ "") comps) acc.
Proof.
  revert acc. induction comps as [|comp comps IH]; intros acc; [done|].
  destruct (decide (comp = "")) as [->|Hne].
  - rewrite filter_cons_False by (by intros ?). simpl. apply IH.
  - rewrite filter_cons_True by done. cbn [OsPath.normcomps].
    destruct (_ || _)%bool; [apply IH|].
    destruct (negb _); [apply IH|].
    destruct acc as [|top acc']; [destruct rooted; apply IH|].
    destruct (String.eqb top ".."); apply IH.
Qed.

Lemma normcomps_clean (rooted : bool) (comps rest acc : list string) :
  Forall (λ w, clean_name w = true) comps →
  OsPath.normcomps rooted (comps ++ rest) acc
  = OsPath.normcomps rooted rest (rev comps ++ acc).
Proof.
  intros Hcomps. revert acc.
  induction Hcomps as [|comp comps Hcomp _ IH]; intros acc; [done|].
  apply clean_name_inv in Hcomp as (_ & H1 & H2 & H3 & _).
  cbn [app OsPath.normcomps]. rewrite H1, H2, H3. cbn [orb negb].
  rewrite IH. simpl. by rewrite <- app_assoc.
Qed.

Lemma normcomps_rooted_clean (comps acc : list string) :
  Forall (λ w, no_slash w = true) comps →
  Forall (λ w, clean_name w = true) acc →
  Forall (λ w, clean_name w = true) (OsPath.normcomps true comps acc).
Proof.
  intros Hcomps. revert acc.
  induction Hcomps as [|comp comps Hcomp _ IH]; intros acc Hacc.
  - simpl. by apply Forall_rev.
  - cbn [OsPath.normcomps].
    destruct (String.eqb comp "") eqn:H1; [by apply IH|].
    destruct (String.eqb comp ".") eqn:H2; [by apply IH|]. cbn [orb].
    destruct (String.eqb comp "..") eqn:H3; cbn [negb].
    + destruct acc as [|top acc']; [by apply IH|].
      apply Forall_cons in Hacc as [Htop Hacc].
      apply clean_name_inv in Htop as (_ & _ & _ & -> & _). by apply IH.
    + apply IH. constructor; [|done].
      unfold clean_name. by rewrite H1, H2, H3, Hcomp.
Qed.

Lemma isabs_inv (p : string) :
  OsPath.isabs p = true ↔ ∃ t, p = String "/" t.
Proof.
  unfold OsPath.isabs, PyStr.startswith. destruct p as [|c t].
  - split; [done | by intros [? ?]].
  - cbn [String.prefix]. destruct (ascii_dec "/" c) as [<-|Hne].
    + split; [intros _; by eexists | intros _; by destruct t].
    + split; [done|]. intros [t' [= -> _]]. done.
Qed.

Lemma clean_not_abs (b : string) :
  clean_name b = true → PyStr.startswith b "/" = false.
Proof.
  intros (Hne & _ & _ & _ & Hslash)%clean_name_inv.
  destruct (PyStr.startswith b "/") eqn:Habs; [|done].
  apply isabs_inv in Habs as [t ->]. by vm_compute in Hslash.
Qed.

Lemma normpath_abs (path : string) :
  OsPath.isabs path = true →
  ∃ slashes,
    (slashes = "/" ∨ slashes = "//")
    ∧ OsPath.normpath path
      = slashes +:+ PyStr.join "/"
                      (OsPath.normcomps true (PyStr.split "/" path) []).
Proof.
  intros Habs. pose proof Habs as [t ->]%isabs_inv.
  unfold OsPath.normpath. unfold OsPath.isabs in Habs. rewrite Habs.
  cbn [String.eqb].
  destruct (_ && _)%bool; cbv zeta; rewrite !append_cons; cbn [String.eqb].
  - exists "//". split; [by right | reflexivity].
  - exists "/". split; [by left | reflexivity].
Qed.

Lemma nonempty_comps_normpath (path : string) :
  OsPath.isabs path = true →
  OsPath.nonempty_comps (OsPath.normpath path)
  = OsPath.normcomps true (OsPath.nonempty_comps path) []
  ∧ Forall (λ w, clean_name w = true)
      (OsPath.nonempty_comps (OsPath.normpath path))
  ∧ OsPath.isabs (OsPath.normpath path) = true.
Proof.
  intros Habs. destruct (normpath_abs path Habs) as (slashes & Hsl & ->).
  set (comps := OsPath.normcomps true (PyStr.split "/" path) []).
  assert (Hclean : Forall (λ w, clean_name w = true) comps).
  { apply normcomps_rooted_clean; [apply split_slash_free | constructor]. }
  assert (Hcomps : OsPath.nonempty_comps (slashes +:+ PyStr.join "/" comps)
                   = comps).
  { rewrite <- (nonempty_comps_join comps Hclean) at 2.
    unfold OsPath.nonempty_comps. destruct Hsl as [-> | ->].
    - change ("/" +:+ PyStr.join "/" comps)
        with ("" +:+ String "/" (PyStr.join "/" comps)).
      rewrite split_app_sep, filter_app. reflexivity.
    - change ("//" +:+ PyStr.join "/" comps)
        with ("" +:+ String "/" ("" +:+ String "/" (PyStr.join "/" comps))).
      rewrite !split_app_sep, !filter_app. reflexivity. }
  rewrite Hcomps. split; [|split; [done|]].
  - unfold comps, OsPath.nonempty_comps. apply normcomps_filter.
  - apply isabs_inv. destruct Hsl as [-> | ->]; by eexists.
Qed.

Lemma endswith_char_inv (path : string) (c : ascii) :
  PyStr.endswith_char path c = true → ∃ q, path = q +:+ String c "".
Proof.
  induction path as [|d path IH]; [done|].
  destruct path as [|e path].
  - simpl. intros ->%Ascii.eqb_eq. by exists "".
  - intros Hend. destruct (IH Hend) as [q ->]. by exists (String d q).
Qed.

Lemma endswith_char_app (a b : string) (c : ascii) :
  b ≠ "" → PyStr.endswith_char (a +:+ b) c = PyStr.endswith_char b c.
Proof.
  intros Hb. induction a as [|d a IH]; [done|].
  rewrite append_cons. cbn [PyStr.endswith_char].
  destruct (a +:+ b) eqn:Hab; [|done].
  destruct a; [|done]. by destruct b.
Qed.

Lemma no_slash_endswith (b : string) :
  no_slash b = true → PyStr.endswith_char b "/" = false.
Proof.
  unfold no_slash. induction b as [|c b IH]; [done|]. simpl.
  intros [Hc Hb]%andb_true_iff. apply negb_true_iff in Hc.
  destruct b; [done | by apply IH].
Qed.

Lemma nonempty_comps_join2 (path b : string) :
  clean_name b = true →
  OsPath.nonempty_comps (OsPath.join2 path b)
  = OsPath.nonempty_comps path ++ [b].
Proof.
  intros Hb. unfold OsPath.join2. rewrite (clean_not_abs b Hb).
  apply clean_name_inv in Hb as (Hne & _ & _ & _ & Hslash).
  unfold OsPath.nonempty_comps.
  destruct (String.eqb path "") eqn:Hpath; cbn [orb].
  - apply String.eqb_eq in Hpath as ->.
    change ("" +:+ b) with b. rewrite split_no_slash by done.
    by rewrite filter_cons_True.
  - destruct (PyStr.endswith_char path OsPath.sep) eqn:Hend.
    + apply endswith_char_inv in Hend as [q ->].
      rewrite append_assoc.
      change (String OsPath.sep "" +:+ b) with (String "/" b).
      change (String OsPath.sep "") with (String "/" "").
      rewrite !split_app_sep, (split_no_slash b), !filter_app by done.
      rewrite (filter_cons_True _ b) by done. simpl.
      by rewrite app_nil_r.
    + change ("/" +:+ b) with (String "/" b).
      rewrite split_app_sep, (split_no_slash b), filter_app by done.
      by rewrite (filter_cons_True _ b).
Qed.

Lemma isabs_join2 (path b : string) :
  OsPath.isabs path = true → clean_name b = true →
  OsPath.isabs (OsPath.join2 path b) = true.
Proof.
  intros [t ->]%isabs_inv Hb. unfold OsPath.join2.
  rewrite (clean_not_abs b Hb). apply isabs_inv.
  destruct (_ || _)%bool; rewrite append_cons; by eexists.
Qed.

Lemma join_under (path : string) (names : list string) :
  OsPath.isabs path = true →
  Forall (λ w, clean_name w = true) names →
  OsPath.isabs (OsPath.join path names) = true
  ∧ OsPath.nonempty_comps (OsPath.join path names)
    = OsPath.nonempty_comps path ++ names.
Proof.
  intros Habs Hnames. revert path Habs. unfold OsPath.join.
  induction Hnames as [|b names Hb _ IH]; intros path Habs; simpl.
  - by rewrite app_nil_r.
  - destruct (IH (OsPath.join2 path b) (isabs_join2 path b Habs Hb)) as [-> ->].
    split; [done|]. by rewrite nonempty_comps_join2, <- app_assoc.
Qed.

Lemma common_len_app (a rest : list string) :
  OsPath.common_len a (a ++ rest) = length a.
Proof.
  induction a as [|x a IH]; [by destruct rest|].
  simpl. by rewrite String.eqb_refl, IH.
Qed.

(** Joining names one after the other spells them with slashes. *)
Lemma join_names (a : string) (names : list string) :
  a ≠ "" → PyStr.endswith_char a "/" = false →
  Forall (λ w, clean_name w = true) names →
  OsPath.join a names = PyStr.join "/" (a :: names).
Proof.
  intros Ha Hend Hnames. revert a Ha Hend. unfold OsPath.join.
  induction Hnames as [|b names Hb _ IH]; intros a Ha Hend; [done|].
  cbn [fold_left].
  assert (Hjoin : OsPath.join2 a b = a +:+ String "/" b).
  { unfold OsPath.join2. rewrite (clean_not_abs b Hb).
    apply String.eqb_neq in Ha. rewrite Ha.
    change OsPath.sep with "/"%char. by rewrite Hend. }
  rewrite Hjoin.
  apply clean_name_inv in Hb as (Hne & _ & _ & _ & Hslash).
  rewrite IH.
  - change (PyStr.join "/" (a :: b :: names))
      with (a +:+ String "/" (PyStr.join "/" (b :: names))).
    destruct names as [|b' names]; [done|].
    change (PyStr.join "/" ((a +:+ String "/" b) :: b' :: names))
      with ((a +:+ String "/" b) +:+ String "/" (PyStr.join "/" (b' :: names))).
    change (PyStr.join "/" (b :: b' :: names))
      with (b +:+ String "/" (PyStr.join "/" (b' :: names))).
    by rewrite append_assoc, append_cons.
  - by destruct a.
  - rewrite endswith_char_app by done.
    cbn [PyStr.endswith_char]. destruct b; [done|].
    by apply (no_slash_endswith (String _ _)).
Qed.

Lemma normcomps_clean_all (rooted : bool) (comps : list string) :
  Forall (λ w, clean_name w = true) comps →
  OsPath.normcomps rooted comps [] = comps.
Proof.
  intros Hcomps.
  rewrite <- (app_nil_r comps) at 1. rewrite normcomps_clean by done.
  simpl. by rewrite app_nil_r, rev_involutive.
Qed.

Lemma plugin_path_abs E :
  OsPath.isabs (cwd E) = true →
  OsPath.isabs (plugin_path E) = true
  ∧ Forall (λ w, clean_name w = true) (OsPath.nonempty_comps (plugin_path E)).
Proof.
  intros [t Hcwd]%isabs_inv. unfold plugin_path, OsPath.abspath.
  change (OsPath.isabs "./plugins") with false. cbv iota.
  assert (Habs : OsPath.isabs (OsPath.join (cwd E) ["./plugins"]) = true).
  { apply isabs_inv. rewrite Hcwd. unfold OsPath.join, OsPath.join2.
    cbn [fold_left]. change (PyStr.startswith "./plugins" "/") with false.
    cbv iota. destruct (_ || _)%bool; rewrite append_cons; by eexists. }
  destruct (nonempty_comps_normpath _ Habs) as (_ & Hclean & Habs').
  by split.
Qed.

(** The path of [root/names], taken relative to a normalised absolute
    [root], spells [names] with slashes, whatever the working directory. *)
Lemma relpath_under (cwd root : string) (names : list string) :
  OsPath.isabs root = true →
  Forall (λ w, clean_name w = true) (OsPath.nonempty_comps root) →
  names ≠ [] →
  Forall (λ w, clean_name w = true) names →
  OsPath.relpath cwd (OsPath.join root names) root
  = Ok (PyStr.join "/" names).
Proof.
  intros Habs Hroot Hne Hnames.
  destruct (join_under root names Habs Hnames) as [Habs' Hcomps].
  unfold OsPath.relpath, OsPath.abspath. rewrite Habs, Habs'.
  pose proof Habs' as [t Ht]%isabs_inv. rewrite Ht at 1. cbn [String.eqb].
  destruct (nonempty_comps_normpath root Habs) as (-> & _ & _).
  destruct (nonempty_comps_normpath _ Habs') as (-> & _ & _).
  rewrite Hcomps, !normcomps_clean_all by (by try apply Forall_app).
  cbv zeta. rewrite common_len_app, Nat.sub_diag, drop_app_length.
  cbn [replicate app]. destruct names as [|a names]; [done|].
  apply Forall_cons in Hnames as [Ha Hnames]. f_equal.
  pose proof Ha as (Hane & _ & _ & _ & Hslash)%clean_name_inv.
  apply join_names; [done | by apply no_slash_endswith | done].
Qed.

Lemma rstrip_app_keep (set s t : string) (c : ascii) :
  PyStr.mem c set = false →
  PyStr.rstrip set (s +:+ String c t) = s +:+ String c (PyStr.rstrip set t).
Proof.
  intros Hc. induction s as [|d s IH].
  - change ("" +:+ String c t) with (String c t).
    change ("" +:+ String c (PyStr.rstrip set t))
      with (String c (PyStr.rstrip set t)).
    cbn [PyStr.rstrip]. rewrite Hc. by destruct (PyStr.rstrip set t).
  - rewrite !append_cons. cbn [PyStr.rstrip]. rewrite IH.
    destruct s; [by rewrite (append_cons _ "") || done | by rewrite append_cons].
Qed.

Lemma replace_app (old new : ascii) (s t : string) :
  PyStr.replace old new (s +:+ t)
  = PyStr.replace old new s +:+ PyStr.replace old new t.
Proof.
  induction s as [|d s IH]; [done|].
  rewrite append_cons. cbn [PyStr.replace]. by rewrite IH, append_cons.
Qed.

Lemma startswith_app (p t : string) : PyStr.startswith (p +:+ t) p = true.
Proof.
  unfold PyStr.startswith. induction p as [|c p IH]; [by destruct t|].
  rewrite append_cons. cbn [String.prefix].
  by destruct (ascii_dec c c).
Qed.

(** X18: with an absolute working directory, the location of a file that
    lies under the plugin root, below directories [dirs], does not depend
    on the working directory: it is the names of the directories and of
    the file joined with slashes, stripped on the right of the characters
    [.], [p] and [y], its backslashes turned into slashes.  [Plugin.path]
    of a plugin of that file agrees with it. *)
Theorem X18_location_under_root E (dirs : list string) (file : string)
    (p : Plugin.t) :
  OsPath.isabs (cwd E) = true →
  Forall (λ w, clean_name w = true) (dirs ++ [file]) →
  Plugin.full_path p = OsPath.join (plugin_path E) (dirs ++ [file]) →
  Plugin.plugin_path p = plugin_path E →
  _get_plugin_location E (OsPath.join (OsPath.join (plugin_path E) dirs) [file])
  = Ok (PyStr.replace "\" "/"
          (PyStr.rstrip ".py" (PyStr.join "/" (dirs ++ [file]))))
  ∧ Plugin.path (cwd E) p
    = _get_plugin_location E
        (OsPath.join (OsPath.join (plugin_path E) dirs) [file]).
Proof.
  intros Hcwd Hnames Hfull Hroot.
  destruct (plugin_path_abs E Hcwd) as [Habs Hclean].
  assert (Hjoin : OsPath.join (OsPath.join (plugin_path E) dirs) [file]
                  = OsPath.join (plugin_path E) (dirs ++ [file])).
  { unfold OsPath.join. by rewrite fold_left_app. }
  unfold Plugin.path, _get_plugin_location.
  rewrite Hfull, Hroot, Hjoin.
  rewrite relpath_under by (done || by destruct dirs). done.
Qed.

Lemma X18_location_under_root_witness :
  _get_plugin_location Builtins.E
    (OsPath.join (OsPath.join (plugin_path Builtins.E) ["builtins"])
       ["info.py"])
  = Ok "builtins/info".
Proof.
  refine (proj1 (X18_location_under_root Builtins.E ["builtins"] "info.py"
    (Plugin.mk "info" VNone [] "/kantek/plugins/builtins/info.py"
       "/kantek/plugins" "") _ _ _ _)).
  - reflexivity.
  - by repeat constructor.
  - reflexivity.
  - reflexivity.
Defined.

(** X19: a plugin of a file below the directory [builtins] of the plugin
    root is a built-in for [unregister_all]: its relative path starts
    with [builtins/], whatever the file is called. *)
Theorem X19_builtins_directory E (dirs : list string) (file : string)
    (p : Plugin.t) :
  OsPath.isabs (cwd E) = true →
  Forall (λ w, clean_name w = true) (dirs ++ [file]) →
  Plugin.full_path p
  = OsPath.join (plugin_path E) ("builtins" :: dirs ++ [file]) →
  Plugin.plugin_path p = plugin_path E →
  is_builtin (cwd E) p = true.
Proof.
  intros Hcwd Hnames Hfull Hroot.
  destruct (plugin_path_abs E Hcwd) as [Habs Hclean].
  unfold is_builtin, Plugin.path. rewrite Hfull, Hroot.
  rewrite relpath_under; [|done|done|done|by constructor].
  cbn [rmap rbind].
  assert (Hne : dirs ++ [file] ≠ []) by (by destruct dirs).
  destruct (dirs ++ [file]) as [|w ws] eqn:Hws; [done|].
  change (PyStr.join "/" ("builtins" :: w :: ws))
    with ("builtins" +:+ String "/" (PyStr.join "/" (w :: ws))).
  rewrite rstrip_app_keep by reflexivity.
  rewrite replace_app. cbn [PyStr.replace].
  change (PyStr.startswith
            ("builtins/" +:+ PyStr.replace "\" "/"
               (PyStr.rstrip ".py" (PyStr.join "/" (w :: ws))))
            "builtins/" = true).
  apply startswith_app.
Qed.

Lemma X19_builtins_directory_witness :
  is_builtin "/kantek"
    (Plugin.mk "info" VNone [] "/kantek/plugins/builtins/info.py"
       "/kantek/plugins" "") = true.
Proof.
  refine (X19_builtins_directory Builtins.E [] "info.py" _ _ _ _ _).
  - reflexivity.
  - by repeat constructor.
  - reflexivity.
  - reflexivity.
Defined.
